(** * dclmic-export: a shallow embedding of [export_dataframes.py]

    The development follows [src/dclmic_export/export_dataframes.py]:
    - [friendlize] (lines 7-9);
    - [save_dfs_as_xl] (lines 12-193), the spreadsheet formatter;
    - [upload_to_google_sheets] (lines 196-259), the cloud sheet uploader;
    - [upload_to_sql] (lines 262-336), the relational bulk loader;
    - [make_table_spatial] (lines 339-381), the spatial promoter.

    Conventions.
    - A Python [str] is a Rocq [string]; case conversion is the ASCII one
      (characters outside [A-Za-z] are left alone), which is Python's on
      ASCII strings. What depends on the case conversion of other strings
      is stated for ASCII strings, or over the second model of the sheet
      identifier: strings as lists of code points, with [str.lower] and
      [str.capitalize] of Python as parameters.
    - A [dict] is a [gmap]; a Python [list] is a [list]; [int] is [Z], or
      [nat] where it counts or indexes.
    - Exceptions of Python's own operations are modelled: the index error
      of [sheet_names[i]] and the division by zero of [index % 0]. So are
      the exceptions of the database driver, which the loader catches.
    - Calls into pandas and xlsxwriter are recorded by what the source
      passes to them and are taken to succeed: column labels are distinct
      strings, none of them [name]; xlsxwriter's own checks of sheet names
      are not part of the source.
    - Calls into gspread and into the database may raise, as the service
      decides; the service is a function of the calls made so far.
    - The column width of lines 148-156 is left out. *)

From Stdlib Require Import Ascii ZArith.
From stdpp Require Import base decidable option list numbers strings gmap.

(** ** Python string primitives *)

Module Py.

Definition is_upper (c : ascii) : bool :=
  let n := nat_of_ascii c in (65 <=? n)%nat && (n <=? 90)%nat.

Definition is_lower (c : ascii) : bool :=
  let n := nat_of_ascii c in (97 <=? n)%nat && (n <=? 122)%nat.

Definition lower_char (c : ascii) : ascii :=
  if is_upper c then ascii_of_nat (nat_of_ascii c + 32) else c.

Definition upper_char (c : ascii) : ascii :=
  if is_lower c then ascii_of_nat (nat_of_ascii c - 32) else c.

(** [s.lower()], for an ASCII string *)
Fixpoint lower (s : string) : string :=
  match s with
  | EmptyString => EmptyString
  | String c r => String (lower_char c) (lower r)
  end.

(** [s.capitalize()], for an ASCII string: first character upper-cased,
    the rest lower-cased. *)
Definition capitalize (s : string) : string :=
  match s with
  | EmptyString => EmptyString
  | String c r => String (upper_char c) (lower r)
  end.

(** [s.split(sep)] for a one-character separator: empty segments are kept,
    and the empty string splits into one empty segment. *)
Fixpoint split (sep : ascii) (s : string) : list string :=
  match s with
  | EmptyString => [EmptyString]
  | String c r =>
      if Ascii.eqb c sep then EmptyString :: split sep r
      else match split sep r with
           | seg :: segs => String c seg :: segs
           | [] => [String c EmptyString]
           end
  end.

(** [sep.join(parts)] *)
Definition join (sep : string) (parts : list string) : string :=
  String.concat sep parts.

(** [s.replace(old, new)] for a one-character [old]. *)
Fixpoint replace (old : ascii) (new : string) (s : string) : string :=
  match s with
  | EmptyString => EmptyString
  | String c r =>
      if Ascii.eqb c old then new +:+ replace old new r
      else String c (replace old new r)
  end.

(** [s[:n]] *)
Fixpoint slice_to (n : nat) (s : string) : string :=
  match n, s with
  | O, _ => EmptyString
  | S _, EmptyString => EmptyString
  | S k, String c r => String c (slice_to k r)
  end.

Fixpoint starts_with (p s : string) : bool :=
  match p, s with
  | EmptyString, _ => true
  | String _ _, EmptyString => false
  | String a p', String b s' => Ascii.eqb a b && starts_with p' s'
  end.

(** [sub in s] *)
Fixpoint contains (sub s : string) : bool :=
  starts_with sub s ||
  match s with
  | EmptyString => false
  | String _ r => contains sub r
  end.

Definition digit_char (d : N) : ascii := ascii_of_N (48 + d).

Fixpoint digits_go (fuel : nat) (n : N) (acc : string) : string :=
  match fuel with
  | O => acc
  | S f =>
      let acc' := String (digit_char (n mod 10)) acc in
      if (n / 10 =? 0)%N then acc' else digits_go f (n / 10)%N acc'
  end.

(** [str(n)] for a non-negative integer. A number has no more decimal
    digits than binary ones, which bounds the recursion. *)
Definition str_N (n : N) : string :=
  digits_go (S (N.to_nat (N.log2 n))) n EmptyString.

(** [str(z)] for an integer. *)
Definition str_Z (z : Z) : string :=
  match z with
  | Zneg p => String "-" (str_N (Npos p))
  | _ => str_N (Z.to_N z)
  end.

End Py.

(** ** [friendlize] (lines 7-9) *)

Definition friendlize (s : string) : string :=
  let split := Py.split "_" (Py.lower s) in
  Py.join " " (map Py.capitalize split).

(** ** Data model: pandas values, series and frames *)

(** A [float64] cell: not-a-number (the missing marker of a float column),
    an infinity, or the finite dyadic number [m * 2^e]. *)
Inductive float64 : Type :=
| FNaN
| FInf (negative : bool)
| FFin (m e : Z).

(** A timezone-aware timestamp at second resolution. *)
Record Timestamp : Type := mkTimestamp
  { ts_year : N; ts_month : N; ts_day : N;
    ts_hour : N; ts_minute : N; ts_second : N }.

(** A Python value as a cell can hold it; an [object] column holds any. *)
Inductive PyVal : Type :=
| VInt (z : Z)
| VFloat (x : float64)
| VBool (b : bool)
| VStr (s : string)
| VNone
| VTimestamp (t : Timestamp)
| VNaT.

Inductive Dtype : Type :=
| int64 | float64_t | bool_t | object_t | datetime64_ns_UTC.

(** A column: one declared type and its values ([None] in a datetime
    column is [NaT]). *)
Inductive Series : Type :=
| IntSeries (vs : list Z)
| FloatSeries (vs : list float64)
| BoolSeries (vs : list bool)
| ObjectSeries (vs : list PyVal)
| DatetimeSeries (vs : list (option Timestamp)).

Definition dtype (s : Series) : Dtype :=
  match s with
  | IntSeries _ => int64
  | FloatSeries _ => float64_t
  | BoolSeries _ => bool_t
  | ObjectSeries _ => object_t
  | DatetimeSeries _ => datetime64_ns_UTC
  end.

Definition Dtype_eqb (a b : Dtype) : bool :=
  match a, b with
  | int64, int64 | float64_t, float64_t | bool_t, bool_t
  | object_t, object_t | datetime64_ns_UTC, datetime64_ns_UTC => true
  | _, _ => false
  end.

(** A frame: [df_nrows] is [len(df)] (that is [df.shape[0]]), [df_columns]
    the labelled columns in order ([df.shape[1]] of them). Labels are
    strings and pairwise distinct, so [df[label]] is the column paired with
    [label], and no label shadows the attribute [name]. *)
Record DataFrame : Type := mkDataFrame
  { df_nrows : nat;
    df_columns : list (string * Series) }.

Definition df_labels (df : DataFrame) : list string := (df_columns df).*1.
Definition df_ncols (df : DataFrame) : nat := length (df_columns df).

(** *** The float test of line 173 *)

(** [series.fillna(v)] on one cell. *)
Definition fillna (v : float64) (x : float64) : float64 :=
  match x with
  | FNaN => v
  | _ => x
  end.

(** [x % 1]: the remainder has the sign of the divisor; it is not-a-number
    for an infinity or a not-a-number. The remainder is kept exact here
    (the rounding of the binary result never turns a non-zero remainder
    into zero or back). *)
Definition float_mod1 (x : float64) : float64 :=
  match x with
  | FFin m e => if (0 <=? e)%Z then FFin 0 0 else FFin (m mod 2 ^ (- e)) e
  | _ => FNaN
  end.

(** [x == 0] *)
Definition float_eq0 (x : float64) : bool :=
  match x with
  | FFin m _ => (m =? 0)%Z
  | _ => false
  end.

(** [(series.fillna(-9999) % 1 == 0).all()] *)
Definition all_whole (vs : list float64) : bool :=
  forallb (fun x => float_eq0 (float_mod1 (fillna (FFin (-9999) 0) x))) vs.

(** ** The workbook as [save_dfs_as_xl] builds it *)

(** [workbook.add_format({"num_format": p})] *)
Record Format : Type := add_format { num_format : string }.

Global Instance Format_inhabited : Inhabited Format :=
  populate (add_format EmptyString).

(** Lines 49-56. *)
Definition STYLEBOOK : gmap string Format :=
  list_to_map
    [ ("thousands", add_format "#,###");
      ("currency", add_format "$#,##0.00");
      ("currency_int", add_format "$#,##0");
      ("decimal", add_format "#,##0.00");
      ("percent", add_format "0.00%");
      ("percent_int", add_format "0%") ].

(** [worksheet.write(row, col, text, header_format)] *)
Record HeaderCell : Type := mkHeaderCell
  { hc_row : nat; hc_col : nat; hc_text : string }.

(** The title: [merge_range("B2:<lastcol>2", ...)], given by its corner
    cells (zero-indexed), or [write(1, 1, ...)]. *)
Inductive TitleCell : Type :=
| MergeRange (first_row first_col last_row last_col : nat) (text : string)
| WriteCell (row col : nat) (text : string).

Definition title_text (t : TitleCell) : string :=
  match t with
  | MergeRange _ _ _ _ text => text
  | WriteCell _ _ text => text
  end.

(** [worksheet.set_column(first_col, last_col, width, cell_format)]; the
    width (lines 148-156) needs Python's rendering of floats and is left
    out: nothing below depends on it. *)
Record ColumnSetting : Type := mkColumnSetting
  { cs_first_col : nat; cs_last_col : nat; cs_cell_format : option Format }.

(** [worksheet.autofilter(first_row, first_col, last_row, last_col)] *)
Record Autofilter : Type := mkAutofilter
  { af_first_row : nat; af_first_col : nat;
    af_last_row : nat; af_last_col : nat }.

Record Worksheet : Type := mkWorksheet
  { ws_name : string;               (* add_worksheet(sheet_name) *)
    ws_startrow : nat;              (* to_excel(startrow=3, ...) *)
    ws_startcol : nat;              (* to_excel(startcol=1, ...) *)
    ws_data_rows : nat;             (* rows written by to_excel *)
    ws_header : list HeaderCell;
    ws_title : TitleCell;
    ws_columns : list ColumnSetting;
    ws_autofilter : Autofilter }.

Inductive Exn : Type :=
| IndexError.

(** ** [save_dfs_as_xl] (lines 12-193) *)

(** Lines 59-67: the display name stored in [bdf.name] and the sheet
    identifier before the friendly-naming step. *)
Definition name_frame (i : nat) (sheet_names : list string)
    (tab_names : gmap string string) : Exn + (string * string) :=
  match sheet_names with
  | _ :: _ =>
      match sheet_names !! i with
      | None => inl IndexError
      | Some bdf_name =>
          match tab_names !! bdf_name with
          | Some tab => inr (bdf_name, Py.slice_to 31 tab)
          | None => inr (bdf_name, Py.slice_to 31 bdf_name)
          end
      end
  | [] =>
      let bdf_name := "Sheet" +:+ Py.str_N (N.of_nat i) in
      inr (bdf_name, bdf_name)
  end.

(** Lines 71-72. *)
Definition final_sheet_name (friendly_names : bool) (sheet_name : string) : string :=
  if friendly_names then friendlize sheet_name else sheet_name.

(** Lines 103-104. *)
Definition header_cells (friendly_names : bool) (df : DataFrame) : list HeaderCell :=
  imap (fun col_num value =>
          mkHeaderCell 2 (col_num + 1)
            (if friendly_names then friendlize value else value))
       (df_labels df).

(** Lines 119-124. *)
Definition title_cell (bdf_name : string) (df : DataFrame) : TitleCell :=
  let title := bdf_name in
  if (1 <? df_ncols df)%nat then MergeRange 1 1 1 (df_ncols df) title
  else WriteCell 1 1 title.

(** Lines 158-178: the number format of one column. *)
Definition num_format_of (col_format : gmap string (gmap string string))
    (bdf_name col_name : string) (series : Series) : option Format :=
  match col_format !! bdf_name ≫= (fun per_table => per_table !! col_name) with
  | Some style =>
      match STYLEBOOK !! style with
      | Some fmt => Some fmt
      | None => Some (add_format style)
      end
  | None =>
      if Py.contains "%" col_name || Py.contains "percent" (Py.lower col_name)
      then Some (STYLEBOOK !!! "percent")
      else if Py.contains "income" (Py.lower col_name)
              || Py.contains "salary" (Py.lower col_name)
              || Py.contains "wage" (Py.lower col_name)
      then Some (STYLEBOOK !!! "currency")
      else if Dtype_eqb (dtype series) int64
      then Some (STYLEBOOK !!! "thousands")
      else match series with
           | FloatSeries vs =>
               if all_whole vs then Some (STYLEBOOK !!! "thousands")
               else Some (STYLEBOOK !!! "decimal")
           | _ => None
           end
  end.

(** Lines 145-185. *)
Definition column_settings (col_format : gmap string (gmap string string))
    (bdf_name : string) (df : DataFrame) : list ColumnSetting :=
  imap (fun idx '(col_name, series) =>
          mkColumnSetting (idx + 1) (idx + 1)
            (num_format_of col_format bdf_name col_name series))
       (df_columns df).

(** Lines 73-188 for one frame. *)
Definition build_sheet (col_format : gmap string (gmap string string))
    (friendly_names : bool) (bdf_name sheet_name : string) (bdf : DataFrame)
    : Worksheet :=
  {| ws_name := sheet_name;
     ws_startrow := 3;
     ws_startcol := 1;
     ws_data_rows := df_nrows bdf;
     ws_header := header_cells friendly_names bdf;
     ws_title := title_cell bdf_name bdf;
     ws_columns := column_settings col_format bdf_name bdf;
     ws_autofilter := mkAutofilter 2 1 (df_nrows bdf) (df_ncols bdf) |}.

(** The loop of line 58, from frame number [i] on: the sheets built, and
    the exception that stopped the loop, if any. *)
Fixpoint write_sheets (col_format : gmap string (gmap string string))
    (sheet_names : list string) (tab_names : gmap string string)
    (friendly_names : bool) (i : nat) (frames : list DataFrame)
    : list Worksheet * option Exn :=
  match frames with
  | [] => ([], None)
  | bdf :: rest =>
      match name_frame i sheet_names tab_names with
      | inl e => ([], Some e)
      | inr (bdf_name, sheet_name) =>
          let sheet_name := final_sheet_name friendly_names sheet_name in
          let ws := build_sheet col_format friendly_names bdf_name sheet_name bdf in
          let '(wss, r) :=
            write_sheets col_format sheet_names tab_names friendly_names (S i) rest in
          (ws :: wss, r)
      end
  end.

(** What a call leaves behind: the sheets added to the workbook, whether
    [writer.close()] (line 191) was reached, what was printed, and the
    exception that escaped, if any. *)
Record XlOutcome : Type := mkXlOutcome
  { xl_sheets : list Worksheet;
    xl_closed : bool;
    xl_stdout : list string;
    xl_raised : option Exn }.

Definition save_dfs_as_xl (list_of_frames : list DataFrame)
    (col_format : gmap string (gmap string string))
    (path file_name : string) (sheet_names : list string)
    (tab_names : gmap string string) (friendly_names : bool) : XlOutcome :=
  let name := path +:+ file_name +:+ ".xlsx" in
  let saving := "Saving to " +:+ name +:+ "..." in
  match write_sheets col_format sheet_names tab_names friendly_names 0 list_of_frames with
  | (sheets, None) => mkXlOutcome sheets true [saving; "Saved!"] None
  | (sheets, Some e) => mkXlOutcome sheets false [saving] (Some e)
  end.

(** ** The world of [upload_to_sql]: caller's frames, database, output *)

(** The parameterised statements the loader sends, by the text they are
    built from: the drop of lines 296-297, the create of lines 308-310 and
    the insert of lines 327-328. *)
Inductive Statement : Type :=
| DropTable (schema table_name : string)
| CreateTable (schema table_name : string) (column_defs : string)
| InsertInto (schema table_name : string) (column_list placeholders : string).

(** [crsr.execute(statement, params)] and [con.commit()]. *)
Inductive Call : Type :=
| Execute (stmt : Statement) (params : list PyVal)
| Commit.

(** A call as the database saw it, with the message of the exception it
    raised, if it raised. *)
Record Event : Type := mkEvent
  { ev_call : Call; ev_raised : option string }.

Inductive Exception : Type :=
| ZeroDivisionError
| DriverError (msg : string).

(** A printed line; [ExceptionLine e] is [print(f"Exception: {e}")]. *)
Inductive Line : Type :=
| Text (s : string)
| ExceptionLine (e : Exception).

(** Frames live in a store and are passed by reference. *)
Definition loc : Type := nat.

Record World : Type := mkWorld
  { heap : gmap loc DataFrame;
    events : list Event;
    stdout : list Line }.

Global Instance DataFrame_inhabited : Inhabited DataFrame :=
  populate (mkDataFrame 0 []).

(** Computations that read and write the world and may raise. *)
Definition M (A : Type) : Type := World -> World * (Exception + A).

Global Instance M_ret : MRet M := fun A (x : A) w => (w, inr x).

Global Instance M_bind : MBind M := fun A B (k : A -> M B) (c : M A) w =>
  match c w with
  | (w', inl e) => (w', inl e)
  | (w', inr x) => k x w'
  end.

(** [try: body except Exception as e: handler(e)] *)
Definition try_except (body : M unit) (handler : Exception -> M unit) : M unit :=
  fun w =>
    match body w with
    | (w', inl e) => handler e w'
    | (w', inr tt) => (w', inr tt)
    end.

Definition raise {A : Type} (e : Exception) : M A := fun w => (w, inl e).

Definition print (l : Line) : M unit := fun w =>
  (mkWorld (heap w) (events w) (stdout w ++ [l]), inr tt).

(** Reading the frame behind a reference (a reference handed over by a
    caller is allocated) and updating it in place. *)
Definition get_df (df : loc) : M DataFrame := fun w => (w, inr (heap w !!! df)).

Definition update_df (df : loc) (f : DataFrame -> DataFrame) : M unit := fun w =>
  (mkWorld (alter f df (heap w)) (events w) (stdout w), inr tt).

Fixpoint for_each {A : Type} (xs : list A) (body : A -> M unit) : M unit :=
  match xs with
  | [] => mret tt
  | x :: rest => body x;; for_each rest body
  end.

(** ** Values as text *)

Definition pad2 (n : N) : string :=
  if (n <? 10)%N then String "0" (Py.str_N n) else Py.str_N n.

Definition pad4 (n : N) : string :=
  if (n <? 10)%N then "000" +:+ Py.str_N n
  else if (n <? 100)%N then "00" +:+ Py.str_N n
  else if (n <? 1000)%N then "0" +:+ Py.str_N n
  else Py.str_N n.

(** [t.strftime("%Y-%m-%d")] *)
Definition strftime_ymd (t : Timestamp) : string :=
  pad4 (ts_year t) +:+ "-" +:+ pad2 (ts_month t) +:+ "-" +:+ pad2 (ts_day t).

(** [str(t)] for a timestamp in UTC. *)
Definition str_timestamp (t : Timestamp) : string :=
  strftime_ymd t +:+ " " +:+ pad2 (ts_hour t) +:+ ":" +:+ pad2 (ts_minute t)
    +:+ ":" +:+ pad2 (ts_second t) +:+ "+00:00".

(** The cells of a column as Python values. *)
Definition cells (s : Series) : list PyVal :=
  match s with
  | IntSeries vs => VInt <$> vs
  | FloatSeries vs => VFloat <$> vs
  | BoolSeries vs => VBool <$> vs
  | ObjectSeries vs => vs
  | DatetimeSeries vs => (fun o => from_option VTimestamp VNaT o) <$> vs
  end.

(** Lines 276-277. *)
Definition rename_column (y : string) : string :=
  Py.lower (Py.replace ")" "" (Py.replace "(" "" (Py.replace ":" "" (Py.replace " " "_" y)))).

Section Loader.

(** Python's rendering of a float, taken as given. *)
Variable str_float : float64 -> string.

(** The database: whether a call raises, and with which message, given
    the calls so far. *)
Variable db_raises : list Event -> Call -> option string.

(** [str(v)] *)
Definition py_str (v : PyVal) : string :=
  match v with
  | VInt z => Py.str_Z z
  | VFloat x => str_float x
  | VBool b => if b then "True" else "False"
  | VStr s => s
  | VNone => "None"
  | VTimestamp t => str_timestamp t
  | VNaT => "NaT"
  end.

(** [series.astype(str)] *)
Definition astype_str (s : Series) : Series :=
  ObjectSeries ((fun v => VStr (py_str v)) <$> cells s).

(** [series.dt.strftime("%Y-%m-%d")], on the datetime columns the test
    of line 288 selects. *)
Definition dt_strftime_ymd (s : Series) : Series :=
  match s with
  | DatetimeSeries vs =>
      ObjectSeries ((fun o => from_option (fun t => VStr (strftime_ymd t)) VNone o) <$> vs)
  | _ => s
  end.

(** [df[x] = f(df[x])] *)
Definition set_item (x : string) (f : Series -> Series) (d : DataFrame) : DataFrame :=
  mkDataFrame (df_nrows d)
    ((fun '(label, s) => if String.eqb label x then (label, f s) else (label, s))
       <$> df_columns d).

(** [df.select_dtypes(include=["datetime64[ns, UTC]"]).columns.tolist()] *)
Definition datetime_labels (d : DataFrame) : list string :=
  (filter (fun '(_, s) => Dtype_eqb (dtype s) datetime64_ns_UTC = true) (df_columns d)).*1.

(** [df.columns = labels] *)
Definition set_columns (labels : list string) (d : DataFrame) : DataFrame :=
  mkDataFrame (df_nrows d) (zip labels (df_columns d).*2).

(** Lines 286-289, for one label [x]. *)
Definition adjust_column (df : loc) (x : string) : M unit :=
  update_df df (set_item x astype_str);;
  d ← get_df df;
  if bool_decide (x ∈ datetime_labels d)
  then update_df df (set_item x dt_strftime_ymd)
  else mret tt.

(** Lines 274-289; the result is [columns]. *)
Definition normalise (df : loc) : M (list string) :=
  d ← get_df df;
  update_df df (set_columns (rename_column <$> df_labels d));;
  d ← get_df df;
  let columns := df_labels d in
  for_each columns (adjust_column df);;
  mret columns.

Definition db (c : Call) : M unit := fun w =>
  let r := db_raises (events w) c in
  (mkWorld (heap w) (events w ++ [mkEvent c r]) (stdout w),
   match r with
   | Some msg => inl (DriverError msg)
   | None => inr tt
   end).

(** Lines 292-316. *)
Definition recreate_table (columns : list string) (table_name schema : string) : M unit :=
  let format_columns := (fun x => "[" +:+ x +:+ "][VARCHAR](Max) NOT NULL") <$> columns in
  try_except
    (print (Text "Trying to drop old table.");;
     db (Execute (DropTable schema table_name) []);;
     db Commit;;
     print (Text "Dropped!"))
    (fun e => print (Text "No existing table to drop.");; print (ExceptionLine e));;
  try_except
    (print (Text "Creating new sql table...");;
     db (Execute (CreateTable schema table_name (Py.join "," format_columns)) []);;
     db Commit;;
     print (Text "Done."))
    (fun e => print (Text "Could not create new table.");; print (ExceptionLine e)).

(** [df.reset_index().iterrows()], each row already cut by [row[1:]]:
    the row number and the cells of the frame's own columns (the cut
    removes the column [reset_index] puts in front). A column shorter than
    [len(df)] does not occur; [None] stands in for its missing cells. *)
Definition iterrows (d : DataFrame) : list (nat * list PyVal) :=
  (fun index => (index, (fun '(_, s) => default VNone (cells s !! index)) <$> df_columns d))
    <$> seq 0 (df_nrows d).

(** [index % chunk_print_size == 0] *)
Definition is_chunk_start (index : nat) (chunk_print_size : Z) : M bool :=
  if (chunk_print_size =? 0)%Z then raise ZeroDivisionError
  else mret (Z.of_nat index mod chunk_print_size =? 0)%Z.

Definition insert_statement (columns : list string) (table_name schema : string) : Statement :=
  InsertInto schema table_name (Py.join "," columns)
    (Py.join "," (replicate (length columns) "?")).

(** Lines 322-333: the body of the row loop. *)
Definition upload_row (df : loc) (columns : list string) (table_name schema : string)
    (chunk_print_size : Z) (item : nat * list PyVal) : M unit :=
  let '(index, row) := item in
  try_except
    (starts ← is_chunk_start index chunk_print_size;
     (if starts : bool
      then d ← get_df df;
           print (Text (Py.str_N (N.of_nat index) +:+ " out of "
                          +:+ Py.str_N (N.of_nat (df_nrows d))))
      else mret tt);;
     db (Execute (insert_statement columns table_name schema) row))
    (fun e =>
       print (Text ("Could not upload " +:+ Py.str_N (N.of_nat index)));;
       print (ExceptionLine e)).

(** Lines 262-336. *)
Definition upload_to_sql (df : loc) (table_name schema : string) (drop : bool)
    (chunk_print_size : Z) : M unit :=
  print (Text "Writing DataFrame into sql table.");;
  print (Text ("Table name: LMDW." +:+ schema +:+ "." +:+ table_name));;
  columns ← normalise df;
  (if drop then recreate_table columns table_name schema else mret tt);;
  d ← get_df df;
  print (Text ("Writing in " +:+ Py.str_N (N.of_nat (df_nrows d)) +:+ " rows."));;
  print (Text "Uploading...");;
  for_each (iterrows d) (upload_row df columns table_name schema chunk_print_size);;
  db Commit;;
  print (Text "Done!").

End Loader.

(** ** Scripts that talk to an outside service *)

(** What a script leaves behind: the calls it made, each with the message
    of the exception it raised, if it raised, and the lines it printed. *)
Record Trace (C : Type) : Type := mkTrace
  { tr_calls : list (C * option string);
    tr_out : list string }.

Arguments mkTrace {C} _ _.
Arguments tr_calls {C} _.
Arguments tr_out {C} _.

(** A script ends normally or with an exception, given by [str(e)]. *)
Definition Script (C A : Type) : Type := Trace C -> Trace C * (string + A).

Global Instance Script_ret (C : Type) : MRet (Script C) :=
  fun A (x : A) t => (t, inr x).

Global Instance Script_bind (C : Type) : MBind (Script C) :=
  fun A B (k : A -> Script C B) (c : Script C A) t =>
    match c t with
    | (t', inl e) => (t', inl e)
    | (t', inr x) => k x t'
    end.

(** [print(line)] *)
Definition say {C : Type} (line : string) : Script C unit := fun t =>
  (mkTrace (tr_calls t) (tr_out t ++ [line]), inr tt).

(** [raise] of an exception whose [str] is [msg]. *)
Definition throw {C A : Type} (msg : string) : Script C A := fun t => (t, inl msg).

(** [try: body except Exception as e: handler(e)] *)
Definition attempt {C : Type} (body : Script C unit) (handler : string -> Script C unit)
    : Script C unit :=
  fun t =>
    match body t with
    | (t', inl e) => handler e t'
    | (t', inr tt) => (t', inr tt)
    end.

(** [try: body except Exception as e: handler(e); return], then [rest]. *)
Definition attempt_or_return {C : Type} (body : Script C unit)
    (handler : string -> Script C unit) (rest : Script C unit) : Script C unit :=
  fun t =>
    match body t with
    | (t', inl e) => handler e t'
    | (t', inr tt) => rest t'
    end.

(** A call to the service: [raises] tells, from the calls so far, whether
    it raises and with which message. *)
Definition call {C : Type} (raises : list (C * option string) -> C -> option string)
    (c : C) : Script C unit :=
  fun t =>
    let r := raises (tr_calls t) c in
    (mkTrace (tr_calls t ++ [(c, r)]) (tr_out t),
     match r with
     | Some msg => inl msg
     | None => inr tt
     end).

(** [d[key]] on a dict; the [str] of a [KeyError] is the quoted key. *)
Definition getitem {C : Type} (d : gmap string string) (key : string) : Script C string :=
  match d !! key with
  | Some v => mret v
  | None => throw ("'" +:+ key +:+ "'")
  end.

(** ** [upload_to_google_sheets] (lines 196-259) *)

(** The [sheet] argument: an [int] or a [str]. *)
Inductive SheetSelector : Type :=
| SheetIndex (i : Z)
| SheetName (name : string).

(** [sheet != 0] *)
Definition differs_from_zero (sheet : SheetSelector) : bool :=
  match sheet with
  | SheetIndex i => negb (i =? 0)%Z
  | SheetName _ => true
  end.

(** The calls into gspread, each on the object the call before it
    returned: [gs.service_account], [gc.create], [sh.share], [gc.open],
    [wks.get_worksheet], [wks.worksheet], [wks.add_worksheet],
    [worksheet.clear] and [worksheet.update]. *)
Inductive GCall : Type :=
| ServiceAccount (filename : string)
| Create (bookname : string)
| Share (email perm_type role : string)
| Open (bookname : string)
| GetWorksheet (index : Z)
| WorksheetByName (title : string)
| AddWorksheet (title : string) (rows cols : Z)
| Clear
| Update (payload : list (list PyVal)).

Definition newline : string := String (ascii_of_nat 10) EmptyString.

Section GoogleSheets.

(** [dataframe.fillna("").values.tolist()], pandas's conversion of the
    cells to rows of Python values, taken as given. *)
Variable fillna_values : DataFrame -> list (list PyVal).

(** The service: whether a call raises, given the calls so far, and the
    dict [worksheet.update] returns when it does not raise (its values
    already as text). *)
Variable gs_raises : list (GCall * option string) -> GCall -> option string.
Variable update_returns : list (GCall * option string) -> gmap string string.

(** [returns = worksheet.update(payload)] *)
Definition worksheet_update (payload : list (list PyVal)) : Script GCall (gmap string string) :=
  fun t =>
    match call gs_raises (Update payload) t with
    | (t', inl e) => (t', inl e)
    | (t', inr tt) => (t', inr (update_returns (tr_calls t')))
    end.

(** Lines 232-243. *)
Definition select_worksheet (sheet : SheetSelector) : Script GCall unit :=
  match sheet with
  | SheetIndex i => call gs_raises (GetWorksheet i)
  | SheetName name =>
      attempt (call gs_raises (WorksheetByName name))
        (fun e =>
           let title := if differs_from_zero sheet then name else "NewSheet" in
           call gs_raises (AddWorksheet title 100000 200);;
           say ("Exception: " +:+ e))
  end.

(** Lines 196-259. *)
Definition upload_to_google_sheets (dataframe : DataFrame) (bookname : string)
    (sheet : SheetSelector) (new_book clear : bool) (authfile : string)
    : Script GCall unit :=
  say ("Loading in df with " +:+ Py.str_N (N.of_nat (df_ncols dataframe))
         +:+ " columns and " +:+ Py.str_N (N.of_nat (df_nrows dataframe)) +:+ " rows");;
  attempt_or_return
    (call gs_raises (ServiceAccount authfile))
    (fun e => say "Could not connect,check filename";; say ("Exception: " +:+ e))
    ((if new_book
      then say ("Creating new workbook '" +:+ bookname +:+ "'");;
           call gs_raises (Create bookname);;
           call gs_raises (Share "cgilchriest.dcccd@gmail.com" "user" "writer")
      else mret tt);;
     attempt_or_return
       (say "Opening workbook...";; call gs_raises (Open bookname))
       (fun e => say "Could not open workbook, check workbook name.";;
                 say ("Exception: " +:+ e))
       (say "Selecting worksheet...";;
        select_worksheet sheet;;
        (if negb new_book && clear then call gs_raises Clear else mret tt);;
        attempt
          (say "Updating workbook...";;
           returns ← worksheet_update
                       ((VStr <$> df_labels dataframe) :: fillna_values dataframe);
           spreadsheet_id ← getitem returns "spreadsheetId";
           updated_rows ← getitem returns "updatedRows";
           say ("Success!" +:+ newline +:+ "Spreadsheet ID: " +:+ spreadsheet_id
                  +:+ newline +:+ "Rows added: " +:+ updated_rows))
          (fun e => say "Could not upload...";; say ("Exception: " +:+ e));;
        say "Done")).

End GoogleSheets.

(** ** [make_table_spatial] (lines 339-381) *)

(** The statements, by the text they are built from: the geometry column
    of line 352, the identity column of line 362, the primary key of line
    365 and the spatial index of lines 371-375 (its bounding box is fixed
    in the text). *)
Inductive SpatialStatement : Type :=
| AddGeometryColumn (schema table_name wkt_geom_col destination_crs : string)
| AddIdentityColumn (schema table_name : string)
| AddPrimaryKey (schema table_name constraint_name : string)
| CreateSpatialIndex (index_name schema table_name : string).

Inductive SpatialCall : Type :=
| SpExecute (stmt : SpatialStatement)
| SpCommit.

Section Spatial.

Variable sp_raises : list (SpatialCall * option string) -> SpatialCall -> option string.

Definition make_table_spatial (table_name schema wkt_geom_col destination_crs : string)
    : Script SpatialCall unit :=
  say ("Making [LMDW].[" +:+ schema +:+ "].[" +:+ table_name
         +:+ "] spatial and adding spatial index.");;
  attempt
    (say "Create a geometry column.";;
     call sp_raises (SpExecute (AddGeometryColumn schema table_name wkt_geom_col
                                  destination_crs));;
     call sp_raises SpCommit)
    (fun e => say "Error on geometry column.";; say ("Exception: " +:+ e));;
  attempt
    (say "Create a spatial index.";;
     call sp_raises (SpExecute (AddIdentityColumn schema table_name));;
     call sp_raises (SpExecute (AddPrimaryKey schema table_name
                                  (table_name +:+ "_constraint_sidx")));;
     call sp_raises SpCommit;;
     say "Setting spatial index...";;
     call sp_raises (SpExecute (CreateSpatialIndex
                                  ("spatial_idx_" +:+ Py.lower table_name)
                                  schema table_name)))
    (fun e => say "Error on spatial index.";; say ("Exception: " +:+ e));;
  say "Done!";;
  call sp_raises SpCommit.

End Spatial.

(** * Definitions used to state the properties *)

(** The friendly-naming rule in the words of its description: split on
    underscores, capitalise each segment, join with single spaces. *)
Definition friendlize_by_segments (s : string) : string :=
  Py.join " " (Py.capitalize <$> Py.split "_" s).

(** [friendlize] character by character: an underscore becomes a space, a
    character at the start of a segment is upper-cased, any other is
    lower-cased. *)
Fixpoint friendlize_from (at_start : bool) (s : string) : string :=
  match s with
  | EmptyString => EmptyString
  | String c r =>
      if Ascii.eqb c "_" then String " " (friendlize_from true r)
      else String (if at_start then Py.upper_char c else Py.lower_char c)
                  (friendlize_from false r)
  end.




(** The display name of table number [i]: the one given for it, or
    [Sheet<i>] when no names are given. *)
Definition display_name (sheet_names : list string) (i : nat) : option string :=
  match sheet_names with
  | [] => Some ("Sheet" +:+ Py.str_N (N.of_nat i))
  | _ :: _ => sheet_names !! i
  end.

(** The string a sheet identifier is made from: the identifier override of
    the display name where there is one, the display name otherwise. *)
Definition identifier_source (sheet_names : list string)
    (tab_names : gmap string string) (i : nat) : option string :=
  match sheet_names with
  | [] => display_name sheet_names i
  | _ :: _ => (fun T => default T (tab_names !! T)) <$> display_name sheet_names i
  end.

(** [len] of a Python list never exceeds [sys.maxsize]. *)
Definition PY_SSIZE_T_MAX : Z := 2 ^ 63 - 1.

(** The renaming of line 276, character by character: colons and round
    brackets go, a space becomes an underscore, letters are lower-cased. *)
Fixpoint rename_chars (y : string) : string :=
  match y with
  | EmptyString => EmptyString
  | String c r =>
      if Ascii.eqb c ":" || Ascii.eqb c "(" || Ascii.eqb c ")" then rename_chars r
      else String (if Ascii.eqb c " " then "_"%char else Py.lower_char c) (rename_chars r)
  end.

Definition is_insert (ev : Event) : bool :=
  match ev_call ev with
  | Execute (InsertInto _ _ _ _) _ => true
  | _ => false
  end.

Section LoaderSpec.

Variable str_float : float64 -> string.
Variable db_raises : list Event -> Call -> option string.

(** The frame as [upload_to_sql] leaves it: labels rewritten, every cell
    replaced by the text [str] gives for it. *)
Definition loaded_frame (d : DataFrame) : DataFrame :=
  mkDataFrame (df_nrows d)
    ((fun '(label, s) => (rename_column label, astype_str str_float s)) <$> df_columns d).

(** One turn of the row loop: with a zero print interval the test of
    line 324 raises before the insert is sent; otherwise the insert is
    sent, and a failure is printed and swallowed. *)
Definition row_step (df : loc) (columns : list string) (table_name schema : string)
    (chunk_print_size : Z) (w : World) (item : nat * list PyVal) : World :=
  let could_not := Text ("Could not upload " +:+ Py.str_N (N.of_nat item.1)) in
  if (chunk_print_size =? 0)%Z
  then mkWorld (heap w) (events w)
         (stdout w ++ [could_not; ExceptionLine ZeroDivisionError])
  else
    let c := Execute (insert_statement columns table_name schema) item.2 in
    let r := db_raises (events w) c in
    mkWorld (heap w) (events w ++ [mkEvent c r])
      ((stdout w ++
        if (Z.of_nat item.1 mod chunk_print_size =? 0)%Z
        then [Text (Py.str_N (N.of_nat item.1) +:+ " out of "
                      +:+ Py.str_N (N.of_nat (df_nrows (heap w !!! df))))]
        else []) ++
       match r with
       | Some msg => [could_not; ExceptionLine (DriverError msg)]
       | None => []
       end).

(** The inserts of a run over [rows], each with the answer the database
    gives after the calls before it. *)
Fixpoint inserts (stmt : Statement) (history : list Event) (rows : list (list PyVal))
    : list Event :=
  match rows with
  | [] => []
  | row :: rest =>
      let ev := mkEvent (Execute stmt row) (db_raises history (Execute stmt row)) in
      ev :: inserts stmt (history ++ [ev]) rest
  end.

(** The world when the row loop is over: the frame rewritten in place,
    the table statements [table_events] sent (none when [drop] is off),
    then one turn of the loop per row. *)
Definition after_rows (df : loc) (d : DataFrame) (table_name schema : string)
    (chunk_print_size : Z) (w : World) (table_events : list Event) (ls : list Line)
    : World :=
  foldl (row_step df (rename_column <$> df_labels d) table_name schema
           chunk_print_size)
    (mkWorld (<[df := loaded_frame d]> (heap w)) (events w ++ table_events)
       (stdout w ++ ls))
    (iterrows (loaded_frame d)).

End LoaderSpec.

(** ** Sample tables and databases *)

Definition sales : DataFrame :=
  mkDataFrame 3
    [ ("count", IntSeries [10; 20; 30]%Z);
      ("share %", FloatSeries [FFin 1 (-2); FFin 1 (-1); FFin 1 (-2)]);
      ("units_sold", FloatSeries [FFin 1 0; FFin 2 0; FFin 3 0]);
      ("unit_price", FloatSeries [FFin 1 0; FFin 5 (-1); FNaN]);
      ("region", ObjectSeries [VStr "north"; VStr "south"; VNone]) ].

Definition three_rows : DataFrame :=
  mkDataFrame 3 [ ("n", IntSeries [1; 2; 3]%Z) ].

Definition dated : DataFrame :=
  mkDataFrame 1 [ ("When", DatetimeSeries [Some (mkTimestamp 2024 1 5 0 0 0)]) ].

Definition ten_rows : DataFrame :=
  mkDataFrame 10 [ ("Row Id", IntSeries [0; 1; 2; 3; 4; 5; 6; 7; 8; 9]%Z) ].

(** A database that refuses the row whose only cell is the text [5]. *)
Definition refuse_five (history : list Event) (c : Call) : option string :=
  match c with
  | Execute (InsertInto _ _ _ _) [VStr "5"] => Some "conversion failed"
  | _ => None
  end.

Definition one_frame_world : World := mkWorld {[ 7 := sales ]} [] [].

Definition ten_rows_world : World := mkWorld {[ 0 := ten_rows ]} [] [].

(** A call of the sheet uploader outside every [try] block. *)
Definition unguarded (c : GCall) : bool :=
  match c with
  | Create _ | Share _ _ _ | GetWorksheet _ | AddWorksheet _ _ _ | Clear => true
  | _ => false
  end.

Definition is_update (c : GCall) : bool :=
  match c with
  | Update _ => true
  | _ => false
  end.

Definition creates_spatial_index (c : SpatialCall) : bool :=
  match c with
  | SpExecute (CreateSpatialIndex _ _ _) => true
  | _ => false
  end.

Definition adds_primary_key (c : SpatialCall) : bool :=
  match c with
  | SpExecute (AddPrimaryKey _ _ _) => true
  | _ => false
  end.

Definition is_digit (c : ascii) : bool :=
  let n := nat_of_ascii c in (48 <=? n)%nat && (n <=? 57)%nat.

Fixpoint all_digits (s : string) : bool :=
  match s with
  | EmptyString => true
  | String c r => is_digit c && all_digits r
  end.

(** Every column of the frame has one cell per row. *)
Definition rectangular (d : DataFrame) : Prop :=
  Forall (fun '(_, s) => length (cells s) = df_nrows d) (df_columns d).

Definition is_text (v : PyVal) : bool :=
  match v with
  | VStr _ => true
  | _ => false
  end.

(** A table whose names and types meet several format rules. *)
Definition payroll : DataFrame :=
  mkDataFrame 2
    [ ("Median_Wage", ObjectSeries [VStr "n/a"; VNone]);
      ("percent_income", IntSeries [1; 2]%Z);
      ("active", BoolSeries [true; false]);
      ("headcount", IntSeries [12; 7]%Z) ].


(** A statement that drops or creates the table. *)
Definition is_ddl (ev : Event) : bool :=
  match ev_call ev with
  | Execute (DropTable _ _) _ | Execute (CreateTable _ _ _) _ => true
  | _ => false
  end.

Definition is_commit (ev : Event) : bool :=
  match ev_call ev with
  | Commit => true
  | _ => false
  end.

(** A database that refuses every commit. *)
Definition commit_refused (history : list Event) (c : Call) : option string :=
  match c with
  | Commit => Some "connection lost"
  | _ => None
  end.

(** A string of ASCII characters only. On these [Py.lower] and
    [Py.capitalize] are Python's [str.lower] and [str.capitalize]. *)
Fixpoint ascii_only (s : string) : bool :=
  match s with
  | EmptyString => true
  | String c r => (nat_of_ascii c <? 128)%nat && ascii_only r
  end.

(** ** Sheet identifiers over all of Unicode (lines 7-9 and 59-72) *)

(** A Python [str] as the list of its code points. *)
Definition ustring : Type := list N.

(** The code points of an ASCII literal. *)
Fixpoint codepoints (s : string) : ustring :=
  match s with
  | EmptyString => []
  | String c r => N_of_ascii c :: codepoints r
  end.

(** [s.split(sep)] for a one-character separator: empty segments are kept,
    so the result is never empty. *)
Fixpoint u_split (sep : N) (s : ustring) : list ustring :=
  match s with
  | [] => [[]]
  | c :: r =>
      if (c =? sep)%N then [] :: u_split sep r
      else match u_split sep r with
           | seg :: segs => (c :: seg) :: segs
           | [] => [[c]]
           end
  end.

(** [sep.join(parts)] *)
Fixpoint u_join (sep : ustring) (parts : list ustring) : ustring :=
  match parts with
  | [] => []
  | x :: rest =>
      match rest with
      | [] => x
      | _ :: _ => x ++ sep ++ u_join sep rest
      end
  end.

Section UnicodeNames.

(** [str.lower] and [str.capitalize], Python's built-ins, taken as given:
    over all of Unicode they may change the number of code points. *)
Variable str_lower : ustring -> ustring.
Variable str_capitalize : ustring -> ustring.

(** [friendlize] (lines 7-9); the underscore is code point 95, the space
    code point 32. *)
Definition friendlize_unicode (s : ustring) : ustring :=
  let split := u_split 95 (str_lower s) in
  u_join [32%N] (str_capitalize <$> split).

(** Lines 59-72: the string handed to [add_worksheet] for table number
    [i]. The cut [[:31]] of lines 62 and 64 comes first, [friendlize]
    (line 72) after it. *)
Definition sheet_name_unicode (sheet_names : list ustring)
    (tab_names : gmap ustring ustring) (friendly_names : bool) (i : nat)
    : Exn + ustring :=
  let named :=
    match sheet_names with
    | _ :: _ =>
        match sheet_names !! i with
        | None => inl IndexError
        | Some bdf_name =>
            match tab_names !! bdf_name with
            | Some tab => inr (take 31 tab)
            | None => inr (take 31 bdf_name)
            end
        end
    | [] => inr (codepoints ("Sheet" +:+ Py.str_N (N.of_nat i)))
    end in
  match named with
  | inl e => inl e
  | inr sheet_name =>
      inr (if friendly_names then friendlize_unicode sheet_name else sheet_name)
  end.

End UnicodeNames.

(** The display name [İstanbul_population_by_district]: U+0130 (capital I
    with dot above, code point 304) and thirty ASCII characters. *)
Definition istanbul : ustring := 304%N :: codepoints "stanbul_population_by_district".

(** A lower-casing that is Python's on the ASCII characters and on U+0130,
    which [str.lower] turns into [i] and U+0307 (combining dot above, code
    point 775). *)
Definition lower_sample (s : ustring) : ustring :=
  s ≫= (fun c =>
          if (c =? 304)%N then [105; 775]%N
          else if (65 <=? c)%N && (c <=? 90)%N then [(c + 32)%N]
          else [c]).

(** A capitalisation that is Python's on strings of ASCII characters and
    U+0307 that start with an ASCII character. *)
Definition capitalize_sample (s : ustring) : ustring :=
  match s with
  | [] => []
  | c :: r => (if (97 <=? c)%N && (c <=? 122)%N then (c - 32)%N else c) :: lower_sample r
  end.

(** * Properties *)

Example friendlize_hh : friendlize "median_hh_income" = "Median Hh Income".
Proof. reflexivity. Qed.

Example str_N_ex : Py.str_N 1203 = "1203" /\ Py.str_Z (-40) = "-40" /\ Py.str_N 0 = "0".
Proof. repeat split; reflexivity. Qed.

Example str_N_maxsize : Py.str_N (2 ^ 63 - 1) = "9223372036854775807".
Proof. vm_compute. reflexivity. Qed.

(** ** Characters and strings *)

Ltac by_cases_on_char c :=
  destruct c as [[] [] [] [] [] [] [] []]; vm_compute; try reflexivity; try discriminate.

Lemma lower_char_underscore c : Ascii.eqb (Py.lower_char c) "_" = Ascii.eqb c "_".
Proof. by_cases_on_char c. Qed.

Lemma lower_char_idemp c : Py.lower_char (Py.lower_char c) = Py.lower_char c.
Proof. by_cases_on_char c. Qed.

Lemma upper_lower_char c : Py.upper_char (Py.lower_char c) = Py.upper_char c.
Proof. by_cases_on_char c. Qed.

Lemma lower_idemp s : Py.lower (Py.lower s) = Py.lower s.
Proof. induction s as [|c r IH]; simpl; [done|]. by rewrite lower_char_idemp, IH. Qed.

Lemma lower_length s : String.length (Py.lower s) = String.length s.
Proof. induction s as [|c r IH]; simpl; [done|]. by rewrite IH. Qed.

Lemma split_nonempty sep s : Py.split sep s ≠ [].
Proof.
  destruct s as [|c r]; simpl; [done|].
  destruct (Ascii.eqb c sep); [done|]. by destruct (Py.split sep r).
Qed.

(** Splitting a lower-cased string gives the lower-cased segments. *)
Lemma split_lower s : Py.split "_" (Py.lower s) = Py.lower <$> Py.split "_" s.
Proof.
  induction s as [|c r IH]; simpl; [done|].
  rewrite lower_char_underscore. destruct (Ascii.eqb c "_"); simpl.
  - by rewrite IH.
  - rewrite IH. destruct (Py.split "_" r); simpl; done.
Qed.

Lemma capitalize_lower s : Py.capitalize (Py.lower s) = Py.capitalize s.
Proof. destruct s as [|c r]; simpl; [done|]. by rewrite upper_lower_char, lower_idemp. Qed.

Lemma friendlize_by_segments_eq s : friendlize s = friendlize_by_segments s.
Proof.
  unfold friendlize, friendlize_by_segments. rewrite split_lower.
  f_equal. rewrite <- list_fmap_compose. apply list_fmap_ext.
  intros _ seg _. apply capitalize_lower.
Qed.

Lemma friendlize_from_segments s :
  friendlize_from true s = Py.join " " (Py.capitalize <$> Py.split "_" s) ∧
  friendlize_from false s =
    match Py.split "_" s with
    | seg :: segs => Py.join " " (Py.lower seg :: (Py.capitalize <$> segs))
    | [] => EmptyString
    end.
Proof.
  induction s as [|c r [IHt IHf]]; simpl; [done|].
  destruct (Ascii.eqb c "_") eqn:Hc; simpl.
  - rewrite IHt. pose proof (split_nonempty "_" r) as Hne.
    destruct (Py.split "_" r) as [|seg segs]; [done|]. done.
  - rewrite IHf. destruct (Py.split "_" r) as [|seg segs] eqn:Hs.
    + by apply split_nonempty in Hs.
    + simpl. split; by destruct segs.
Qed.

Lemma friendlize_pointwise s : friendlize s = friendlize_from true s.
Proof.
  rewrite friendlize_by_segments_eq. unfold friendlize_by_segments.
  symmetry. apply friendlize_from_segments.
Qed.

Lemma friendlize_from_length b s :
  String.length (friendlize_from b s) = String.length s.
Proof.
  revert b. induction s as [|c r IH]; intros b; simpl; [done|].
  destruct (Ascii.eqb c "_"); simpl; by rewrite IH.
Qed.

Lemma friendlize_length s : String.length (friendlize s) = String.length s.
Proof. rewrite friendlize_pointwise. apply friendlize_from_length. Qed.

Lemma friendlize_from_slice b n s :
  friendlize_from b (Py.slice_to n s) = Py.slice_to n (friendlize_from b s).
Proof.
  revert b s. induction n as [|n IH]; intros b [|c r]; simpl; try done.
  destruct (Ascii.eqb c "_"); simpl; by rewrite IH.
Qed.

(** Truncating before or after the friendly-naming step gives the same
    string. *)
Lemma friendlize_slice n s :
  friendlize (Py.slice_to n s) = Py.slice_to n (friendlize s).
Proof. rewrite !friendlize_pointwise. apply friendlize_from_slice. Qed.

Lemma slice_to_length n s : String.length (Py.slice_to n s) ≤ n.
Proof.
  revert s. induction n as [|n IH]; intros [|c r]; simpl; try lia.
  specialize (IH r). lia.
Qed.

Lemma slice_to_short n s : String.length s ≤ n → Py.slice_to n s = s.
Proof.
  revert s. induction n as [|n IH]; intros [|c r]; simpl; intros H; try done; try lia.
  rewrite IH; [done|lia].
Qed.

Lemma string_app_length (a b : string) :
  String.length (a +:+ b) = String.length a + String.length b.
Proof. induction a as [|c a IH]; simpl; [done|]. by rewrite IH. Qed.

(** A number below [10^k] prints in at most [k] digits. *)
Lemma digits_go_length fuel : ∀ (n : N) (acc : string) (k : nat),
  (n < 10 ^ N.of_nat k)%N → 1 ≤ k →
  String.length (Py.digits_go fuel n acc) ≤ String.length acc + k.
Proof.
  induction fuel as [|fuel IH]; intros n acc k Hn Hk; simpl; [lia|].
  destruct (n / 10 =? 0)%N eqn:Hq; simpl; [lia|].
  apply N.eqb_neq in Hq.
  destruct k as [|[|k]]; [lia| |].
  - exfalso. apply Hq. apply N.div_small. simpl in Hn. lia.
  - etransitivity; [apply (IH _ _ (S k))|simpl; lia]; [|lia].
    apply N.Div0.div_lt_upper_bound.
    replace (N.of_nat (S (S k))) with (N.succ (N.of_nat (S k))) in Hn by lia.
    by rewrite N.pow_succ_r' in Hn.
Qed.

Lemma str_N_length (n : N) (k : nat) :
  (n < 10 ^ N.of_nat k)%N → 1 ≤ k → String.length (Py.str_N n) ≤ k.
Proof. intros Hn Hk. unfold Py.str_N. by apply (digits_go_length _ n EmptyString k). Qed.

(** ** The sheets of an export *)

Section Sheets.

Context (col_format : gmap string (gmap string string))
        (sheet_names : list string) (tab_names : gmap string string)
        (friendly_names : bool).

(** Sheet number [k] of a run that starts at frame number [i] is built
    from frame [k] of the list, under the names of frame number [i + k]. *)
Lemma write_sheets_lookup frames : ∀ i k ws,
  (write_sheets col_format sheet_names tab_names friendly_names i frames).1 !! k = Some ws →
  ∃ bdf bdf_name sheet_name,
    frames !! k = Some bdf ∧
    name_frame (i + k) sheet_names tab_names = inr (bdf_name, sheet_name) ∧
    ws = build_sheet col_format friendly_names bdf_name
           (final_sheet_name friendly_names sheet_name) bdf.
Proof.
  induction frames as [|bdf rest IH]; intros i k ws; simpl; [done|].
  destruct (name_frame i sheet_names tab_names) as [e|[bdf_name sheet_name]] eqn:Hname;
    simpl; [done|].
  destruct (write_sheets col_format sheet_names tab_names friendly_names (S i) rest)
    as [wss r] eqn:Hrest.
  destruct k as [|k]; simpl.
  - intros [= <-]. exists bdf, bdf_name, sheet_name.
    by rewrite Nat.add_0_r.
  - intros Hk. specialize (IH (S i) k ws). rewrite Hrest in IH.
    destruct (IH Hk) as (b & n & s & ? & ? & ?).
    exists b, n, s. by rewrite Nat.add_succ_r.
Qed.

(** Without display names every frame gets a sheet. *)
Lemma write_sheets_auto frames : ∀ i,
  sheet_names = [] →
  ∃ sheets,
    write_sheets col_format sheet_names tab_names friendly_names i frames = (sheets, None)
    ∧ length sheets = length frames.
Proof.
  induction frames as [|bdf rest IH]; intros i ->; simpl.
  - by exists [].
  - destruct (IH (S i) eq_refl) as (sheets & -> & Hlen).
    eexists; split; [done|]. simpl. by rewrite Hlen.
Qed.

(** With display names, the loop stops at the first frame that has none. *)
Lemma write_sheets_named frames : ∀ i,
  sheet_names ≠ [] → i ≤ length sheet_names →
  ∃ sheets,
    write_sheets col_format sheet_names tab_names friendly_names i frames
      = (sheets, if decide (length sheet_names - i < length frames)
                 then Some IndexError else None)
    ∧ length sheets = length frames `min` (length sheet_names - i).
Proof.
  induction frames as [|bdf rest IH]; intros i Hne Hi; cbn [write_sheets length].
  - exists []. split; [|done]. case_decide; [lia|done].
  - unfold name_frame. destruct sheet_names as [|n0 ns] eqn:Hsn; [done|].
    rewrite <- Hsn in *.
    destruct (sheet_names !! i) as [bdf_name|] eqn:Hlk.
    + apply lookup_lt_Some in Hlk as Hlt.
      destruct (IH (S i) Hne ltac:(lia)) as (sheets & Hw & Hlen).
      assert (∃ sheet_name,
        match tab_names !! bdf_name with
        | Some tab => inr (bdf_name, Py.slice_to 31 tab)
        | None => inr (bdf_name, Py.slice_to 31 bdf_name)
        end = (inr (bdf_name, sheet_name) : Exn + (string * string)))
        as [sheet_name ->] by (destruct (tab_names !! bdf_name); eauto).
      rewrite Hw. eexists; split.
      * f_equal.
        destruct (decide (length sheet_names - S i < length rest)),
          (decide (length sheet_names - i < S (length rest))); done || lia.
      * rewrite length_cons, Hlen. lia.
    + apply lookup_ge_None in Hlk.
      exists []. split; [|rewrite length_nil; lia]. case_decide; [done|lia].
Qed.

End Sheets.

Lemma xl_sheets_lookup list_of_frames col_format path file_name sheet_names
    tab_names friendly_names k ws :
  xl_sheets (save_dfs_as_xl list_of_frames col_format path file_name sheet_names
               tab_names friendly_names) !! k = Some ws →
  ∃ bdf bdf_name sheet_name,
    list_of_frames !! k = Some bdf ∧
    name_frame k sheet_names tab_names = inr (bdf_name, sheet_name) ∧
    ws = build_sheet col_format friendly_names bdf_name
           (final_sheet_name friendly_names sheet_name) bdf.
Proof.
  intros H. apply (write_sheets_lookup col_format sheet_names tab_names friendly_names
                     list_of_frames 0 k ws).
  unfold save_dfs_as_xl in H.
  by destruct (write_sheets col_format sheet_names tab_names friendly_names 0 list_of_frames)
    as [sheets [e|]].
Qed.

(** The entry of column [j] in a built sheet. *)
Lemma column_settings_lookup col_format bdf_name bdf j col_name series :
  df_columns bdf !! j = Some (col_name, series) →
  column_settings col_format bdf_name bdf !! j =
    Some (mkColumnSetting (j + 1) (j + 1)
            (num_format_of col_format bdf_name col_name series)).
Proof.
  intros H. unfold column_settings. rewrite list_lookup_imap, H. done.
Qed.

Lemma header_cells_text friendly_names bdf :
  hc_text <$> header_cells friendly_names bdf =
  (fun value => if friendly_names then friendlize value else value) <$> df_labels bdf.
Proof.
  unfold header_cells. generalize (df_labels bdf). intros l.
  rewrite fmap_imap. erewrite imap_ext; [apply imap_const|]. by intros.
Qed.

(** ** The style catalog *)

Lemma STYLEBOOK_entries :
  STYLEBOOK !!! "thousands" = add_format "#,###" ∧
  STYLEBOOK !!! "currency" = add_format "$#,##0.00" ∧
  STYLEBOOK !!! "decimal" = add_format "#,##0.00" ∧
  STYLEBOOK !!! "percent" = add_format "0.00%".
Proof. repeat split; vm_compute; reflexivity. Qed.

(** ** Whole floats *)




Lemma name_frame_display i sheet_names tab_names T sheet_name :
  name_frame i sheet_names tab_names = inr (T, sheet_name) →
  display_name sheet_names i = Some T.
Proof.
  unfold name_frame, display_name. destruct sheet_names as [|n0 ns].
  - by intros [= <- _].
  - destruct ((n0 :: ns) !! i) as [name|]; [|done].
    destruct (tab_names !! name); by intros [= <- _].
Qed.

Lemma name_frame_identifier i sheet_names tab_names T sheet_name :
  name_frame i sheet_names tab_names = inr (T, sheet_name) →
  sheet_name =
    match sheet_names with
    | [] => T
    | _ :: _ => Py.slice_to 31 (default T (tab_names !! T))
    end.
Proof.
  unfold name_frame. destruct sheet_names as [|n0 ns].
  - by intros [= <- <-].
  - destruct ((n0 :: ns) !! i) as [name|]; [|done].
    destruct (tab_names !! name) eqn:Htab; intros [= <- <-]; by rewrite Htab.
Qed.

Lemma auto_name_length (i : nat) :
  (Z.of_nat i ≤ PY_SSIZE_T_MAX)%Z →
  String.length ("Sheet" +:+ Py.str_N (N.of_nat i)) ≤ 24.
Proof.
  intros Hi. rewrite string_app_length.
  assert (String.length (Py.str_N (N.of_nat i)) ≤ 19); [|simpl; lia].
  apply str_N_length; [|lia].
  unfold PY_SSIZE_T_MAX in Hi.
  apply N2Z.inj_lt. rewrite nat_N_Z.
  eapply Z.le_lt_trans; [exact Hi|]. by vm_compute.
Qed.

(** ** Claims about [friendlize] and [save_dfs_as_xl] *)

(** C1. An explicit directive for (display name, column name) decides the
    number format of the column, whatever the column is called and whatever
    it holds: the catalog entry when the directive names one, the directive
    itself as a literal pattern otherwise. *)
Theorem C1_override_precedence list_of_frames col_format path file_name
    sheet_names tab_names friendly_names i j ws bdf T C series per_table directive :
  xl_sheets (save_dfs_as_xl list_of_frames col_format path file_name sheet_names
               tab_names friendly_names) !! i = Some ws →
  list_of_frames !! i = Some bdf →
  df_columns bdf !! j = Some (C, series) →
  display_name sheet_names i = Some T →
  col_format !! T = Some per_table →
  per_table !! C = Some directive →
  (∀ fmt, STYLEBOOK !! directive = Some fmt →
     cs_cell_format <$> ws_columns ws !! j = Some (Some fmt)) ∧
  (STYLEBOOK !! directive = None →
     cs_cell_format <$> ws_columns ws !! j = Some (Some (add_format directive))).
Proof.
  intros Hws Hbdf Hcol HT Htab Hdir.
  destruct (xl_sheets_lookup _ _ _ _ _ _ _ _ _ Hws) as (b & T' & sn & Hb & Hname & ->).
  assert (b = bdf) as -> by congruence.
  apply name_frame_display in Hname. assert (T' = T) as -> by congruence.
  cbn [ws_columns build_sheet].
  rewrite (column_settings_lookup _ _ _ _ _ _ Hcol). cbn [fmap option_fmap option_map cs_cell_format].
  unfold num_format_of. rewrite Htab. cbn [mbind option_bind]. rewrite Hdir.
  split.
  - by intros fmt ->.
  - by intros ->.
Qed.

Lemma C1_witness :
  ∃ ws,
    xl_sheets (save_dfs_as_xl [sales] {[ "Sales" := {[ "count" := "percent" ]} ]}
                 "./" "file" ["Sales"] ∅ true) !! 0 = Some ws ∧
    cs_cell_format <$> ws_columns ws !! 0 = Some (Some (add_format "0.00%")).
Proof.
  eexists. split; [vm_compute; reflexivity|].
  refine (proj1 (C1_override_precedence [sales] {[ "Sales" := {[ "count" := "percent" ]} ]}
            "./" "file" ["Sales"] ∅ true 0 0 _ sales "Sales" "count"
            (IntSeries [10; 20; 30]%Z) {[ "count" := "percent" ]} "percent"
            _ _ _ _ _ _) (add_format "0.00%") _); vm_compute; reflexivity.
Defined.

(** The filter region of a sheet, as line 188 asks for it: it starts at
    the header row and ends at the row whose number is the row count of
    the frame, while the data sit in rows [3 .. 2 + row count]. *)
Lemma autofilter_of_sheet list_of_frames col_format path file_name sheet_names
    tab_names friendly_names i ws bdf :
  xl_sheets (save_dfs_as_xl list_of_frames col_format path file_name sheet_names
               tab_names friendly_names) !! i = Some ws →
  list_of_frames !! i = Some bdf →
  ws_autofilter ws = mkAutofilter 2 1 (df_nrows bdf) (df_ncols bdf) ∧
  ws_startrow ws = 3 ∧ ws_startcol ws = 1 ∧ ws_data_rows ws = df_nrows bdf.
Proof.
  intros Hws Hbdf.
  destruct (xl_sheets_lookup _ _ _ _ _ _ _ _ _ Hws) as (b & T & sn & Hb & _ & ->).
  assert (b = bdf) as -> by congruence. done.
Qed.

(** C2. For a table of three rows and one column the data occupy rows 3 to
    5 and column 1; the filter region asked for ends at row 3, not at row
    5, so the last two data rows are outside it. The columns are right. *)
Theorem C2_autofilter_stops_short :
  ∃ ws,
    xl_sheets (save_dfs_as_xl [three_rows] ∅ "./" "file" [] ∅ true) !! 0 = Some ws ∧
    ws_startrow ws = 3 ∧ ws_data_rows ws = 3 ∧
    ws_autofilter ws = mkAutofilter 2 1 3 1 ∧
    af_last_row (ws_autofilter ws) ≠ 2 + ws_data_rows ws.
Proof. eexists. split; [vm_compute; reflexivity|]. by repeat split. Qed.

(** C3 as stated fails: with the flag set, the title cell keeps the display
    name as given, and an identifier override goes through the friendly
    naming like any other identifier. *)
Lemma C3_counterexample :
  ∃ ws,
    xl_sheets (save_dfs_as_xl [three_rows] ∅ "./" "file" ["Median Income"]
                 {[ "Median Income" := "MI_Tab" ]} true) !! 0 = Some ws ∧
    title_text (ws_title ws) = "Median Income" ∧
    title_text (ws_title ws) ≠ friendlize "Median Income" ∧
    ws_name ws = "Mi Tab" ∧
    ws_name ws ≠ "MI_Tab".
Proof. eexists. split; [vm_compute; reflexivity|]. by repeat split. Qed.

(** C3, amended. With the flag set, every column header and the sheet
    identifier are friendlified, the identifier whether it comes from the
    display name, from the automatic name or from the identifier override
    (cut to 31 characters in the last two cases); the title cell shows the
    display name unchanged. *)
Theorem C3_friendly_names_amended list_of_frames col_format path file_name
    sheet_names tab_names i ws bdf T :
  xl_sheets (save_dfs_as_xl list_of_frames col_format path file_name sheet_names
               tab_names true) !! i = Some ws →
  list_of_frames !! i = Some bdf →
  display_name sheet_names i = Some T →
  title_text (ws_title ws) = T ∧
  hc_text <$> ws_header ws = friendlize <$> df_labels bdf ∧
  ws_name ws =
    friendlize match sheet_names with
               | [] => T
               | _ :: _ => Py.slice_to 31 (default T (tab_names !! T))
               end.
Proof.
  intros Hws Hbdf HT.
  destruct (xl_sheets_lookup _ _ _ _ _ _ _ _ _ Hws) as (b & T' & sn & Hb & Hname & ->).
  assert (b = bdf) as -> by congruence.
  pose proof (name_frame_display _ _ _ _ _ Hname) as HT'.
  assert (T' = T) as -> by congruence.
  apply name_frame_identifier in Hname as ->.
  cbn [ws_title ws_header ws_name build_sheet final_sheet_name].
  split; [|split; [|done]].
  - unfold title_cell. by destruct (1 <? df_ncols bdf).
  - apply header_cells_text.
Qed.

Lemma C3_witness :
  ∃ ws,
    xl_sheets (save_dfs_as_xl [sales] ∅ "./" "file" ["Median Income"]
                 {[ "Median Income" := "MI_Tab" ]} true) !! 0 = Some ws ∧
    title_text (ws_title ws) = "Median Income" ∧
    hc_text <$> ws_header ws =
      ["Count"; "Share %"; "Units Sold"; "Unit Price"; "Region"] ∧
    ws_name ws = "Mi Tab".
Proof.
  eexists. split; [vm_compute; reflexivity|].
  exact (C3_friendly_names_amended [sales] ∅ "./" "file" ["Median Income"]
           {[ "Median Income" := "MI_Tab" ]} 0 _ sales "Median Income"
           eq_refl eq_refl eq_refl).
Defined.





(** C6. [friendlize] splits on underscores, capitalises each segment and
    joins with single spaces; it maps [median_income] to [Median Income]
    and [Median Income] to [Median income], so applying it twice is not
    the same as applying it once. *)
Theorem C6_friendlize :
  (∀ s, friendlize s = friendlize_by_segments s) ∧
  friendlize "median_income" = "Median Income" ∧
  friendlize "Median Income" = "Median income" ∧
  friendlize (friendlize "median_income") ≠ friendlize "median_income".
Proof.
  split; [apply friendlize_by_segments_eq|]. by repeat split.
Qed.

(** C7. The identifier is not always at most 31 characters long: the cut
    to 31 characters comes before the friendly naming, not after it, and
    over Unicode the friendly naming can lengthen a string. The display
    name [İstanbul_population_by_district] has 31 code points and passes
    the cut whole; [str.lower] turns its first character, U+0130, into [i]
    followed by U+0307, and the identifier handed to [add_worksheet],
    [İstanbul Population By District] with a decomposed first letter, has
    32 code points. The case conversions of Python enter as hypotheses on
    the five strings they are applied to. *)
Theorem C7_identifier_exceeds_31 (str_lower str_capitalize : ustring → ustring) :
  str_lower istanbul = [105; 775]%N ++ codepoints "stanbul_population_by_district" →
  str_capitalize ([105; 775]%N ++ codepoints "stanbul")
    = [73; 775]%N ++ codepoints "stanbul" →
  str_capitalize (codepoints "population") = codepoints "Population" →
  str_capitalize (codepoints "by") = codepoints "By" →
  str_capitalize (codepoints "district") = codepoints "District" →
  length istanbul = 31 ∧
  take 31 istanbul = istanbul ∧
  ∃ name,
    sheet_name_unicode str_lower str_capitalize [istanbul] ∅ true 0 = inr name ∧
    name = [73; 775]%N ++ codepoints "stanbul Population By District" ∧
    length name = 32.
Proof.
  intros Hlower H1 H2 H3 H4.
  split; [reflexivity|]. split; [reflexivity|].
  eexists. split; [|split; reflexivity].
  unfold sheet_name_unicode.
  change ([istanbul] !! 0) with (Some istanbul). cbv beta iota.
  rewrite lookup_empty.
  change (take 31 istanbul) with istanbul.
  unfold friendlize_unicode. rewrite Hlower.
  change (u_split 95 ([105; 775]%N ++ codepoints "stanbul_population_by_district"))
    with [[105; 775]%N ++ codepoints "stanbul"; codepoints "population";
          codepoints "by"; codepoints "district"].
  cbn [fmap list_fmap]. rewrite H1, H2, H3, H4. reflexivity.
Qed.

Lemma C7_witness :
  length istanbul = 31 ∧
  take 31 istanbul = istanbul ∧
  ∃ name,
    sheet_name_unicode lower_sample capitalize_sample [istanbul] ∅ true 0 = inr name ∧
    name = [73; 775]%N ++ codepoints "stanbul Population By District" ∧
    length name = 32.
Proof.
  apply (C7_identifier_exceeds_31 lower_sample capitalize_sample); reflexivity.
Defined.

Example friendlize_unicode_ascii :
  friendlize_unicode lower_sample capitalize_sample (codepoints "median_hh_income")
  = codepoints (friendlize "median_hh_income").
Proof. reflexivity. Qed.

(** C9. When display names are given but fewer than tables, the export
    stops with an index error at the first table without a name: the
    sheets of the named tables have been added, none of the others, and the
    document is not closed. *)
Theorem C9_short_name_list list_of_frames col_format path file_name
    sheet_names tab_names friendly_names :
  sheet_names ≠ [] →
  length sheet_names < length list_of_frames →
  let out := save_dfs_as_xl list_of_frames col_format path file_name sheet_names
               tab_names friendly_names in
  xl_raised out = Some IndexError ∧
  length (xl_sheets out) = length sheet_names ∧
  xl_closed out = false.
Proof.
  intros Hne Hshort out. subst out. unfold save_dfs_as_xl.
  destruct (write_sheets_named col_format sheet_names tab_names friendly_names
              list_of_frames 0 Hne ltac:(lia)) as (sheets & -> & Hlen).
  rewrite decide_True by lia. cbn [xl_raised xl_sheets xl_closed].
  repeat split. lia.
Qed.

Lemma C9_witness :
  let out := save_dfs_as_xl [sales; three_rows] ∅ "./" "file" ["Sales"] ∅ true in
  xl_raised out = Some IndexError ∧
  length (xl_sheets out) = 1 ∧
  xl_closed out = false.
Proof.
  apply (C9_short_name_list [sales; three_rows] ∅ "./" "file" ["Sales"] ∅ true).
  - discriminate.
  - simpl. lia.
Defined.

(** The export runs to its end exactly when no display names are given or
    there are at least as many as tables. *)
Lemma save_dfs_as_xl_total list_of_frames col_format path file_name
    sheet_names tab_names friendly_names :
  xl_raised (save_dfs_as_xl list_of_frames col_format path file_name sheet_names
               tab_names friendly_names) = None
  ↔ sheet_names = [] ∨ length list_of_frames ≤ length sheet_names.
Proof.
  unfold save_dfs_as_xl. destruct (decide (sheet_names = [])) as [Hnil|Hne].
  - destruct (write_sheets_auto col_format sheet_names tab_names friendly_names
                list_of_frames 0 Hnil) as (sheets & -> & _).
    split; [by left|done].
  - destruct (write_sheets_named col_format sheet_names tab_names friendly_names
                list_of_frames 0 Hne ltac:(lia)) as (sheets & -> & _).
    case_decide; cbn [xl_raised]; split; try done.
    all: intros; (right; lia) || (destruct_or?; done || lia).
Qed.

(** ** The loader: what happens to the caller's frame *)

Lemma alter_Some {A : Type} (f : A → A) (m : gmap loc A) (i : loc) (x : A) :
  m !! i = Some x → alter f i m = <[i := f x]> m.
Proof.
  intros Hi. apply map_eq. intros j. destruct (decide (i = j)) as [->|Hne].
  - by rewrite lookup_alter_eq, lookup_insert_eq, Hi.
  - by rewrite lookup_alter_ne, lookup_insert_ne.
Qed.

Section LoaderFacts.

Variable str_float : float64 -> string.
Variable db_raises : list Event -> Call -> option string.

Lemma astype_str_idemp s :
  astype_str str_float (astype_str str_float s) = astype_str str_float s.
Proof.
  unfold astype_str. cbn [cells]. f_equal.
  rewrite <- list_fmap_compose. by apply list_fmap_ext.
Qed.

(** Once [df[x]] holds text, [x] is not among the datetime columns: the
    test of line 288 fails. *)
Lemma not_datetime_after_astype x d :
  x ∉ datetime_labels (set_item x (astype_str str_float) d).
Proof.
  unfold datetime_labels, set_item. cbn [df_columns].
  induction (df_columns d) as [|[label s] cols IH]; [apply not_elem_of_nil|].
  rewrite fmap_cons. destruct (String.eqb label x) eqn:Hx.
  - rewrite filter_cons_False by (cbn; done). exact IH.
  - rewrite filter_cons. case_decide; [|exact IH].
    rewrite fmap_cons, not_elem_of_cons. split; [|exact IH].
    cbn. intros <-. by rewrite String.eqb_refl in Hx.
Qed.

Lemma adjust_column_run df x w d :
  heap w !! df = Some d →
  adjust_column str_float df x w =
    (mkWorld (<[df := set_item x (astype_str str_float) d]> (heap w)) (events w) (stdout w),
     inr tt).
Proof.
  intros Hd. unfold adjust_column, mbind, M_bind, update_df, get_df. cbn.
  rewrite (alter_Some _ _ _ _ Hd).
  rewrite lookup_total_insert_eq.
  by rewrite bool_decide_eq_false_2 by apply not_datetime_after_astype.
Qed.

Lemma for_each_adjust_run df labels : ∀ w d,
  heap w !! df = Some d →
  for_each labels (adjust_column str_float df) w =
    (mkWorld (<[df := foldl (fun d x => set_item x (astype_str str_float) d) d labels]> (heap w))
       (events w) (stdout w),
     inr tt).
Proof.
  induction labels as [|x labels IH]; intros w d Hd; cbn [for_each foldl].
  - unfold mret, M_ret. rewrite insert_id by done. by destruct w.
  - unfold mbind, M_bind. rewrite (adjust_column_run _ _ _ _ Hd).
    rewrite (IH _ (set_item x (astype_str str_float) d)) by apply lookup_insert_eq.
    cbn. by rewrite insert_insert_eq.
Qed.

Lemma stringify_labels labels : ∀ d,
  foldl (fun d x => set_item x (astype_str str_float) d) d labels =
  mkDataFrame (df_nrows d)
    ((fun '(label, s) =>
        if bool_decide (label ∈ labels) then (label, astype_str str_float s)
        else (label, s)) <$> df_columns d).
Proof.
  induction labels as [|x labels IH]; intros d; cbn [foldl].
  - destruct d as [n cols]. cbn. f_equal.
    rewrite <- (list_fmap_id cols) at 1. apply list_fmap_ext.
    intros _ [label s] _. by rewrite bool_decide_eq_false_2 by apply not_elem_of_nil.
  - rewrite IH. unfold set_item. cbn [df_nrows df_columns]. f_equal.
    rewrite <- list_fmap_compose. apply list_fmap_ext.
    intros _ [label s] _. cbn.
    destruct (String.eqb label x) eqn:Hx.
    + apply String.eqb_eq in Hx as ->.
      rewrite (bool_decide_eq_true_2 (x ∈ x :: labels)) by apply list_elem_of_here.
      case_bool_decide; by rewrite ?astype_str_idemp.
    + apply String.eqb_neq in Hx.
      rewrite (bool_decide_ext (label ∈ x :: labels) (label ∈ labels)); [done|].
      rewrite elem_of_cons. split; [intros [?|?]; done|by right].
Qed.

Lemma set_columns_rename d :
  set_columns (rename_column <$> df_labels d) d =
  mkDataFrame (df_nrows d) ((fun '(label, s) => (rename_column label, s)) <$> df_columns d).
Proof.
  unfold set_columns, df_labels. f_equal.
  induction (df_columns d) as [|[label s] cols IH]; [done|].
  cbn. by rewrite IH.
Qed.

(** Lines 274-289 rename the labels and turn every column into text; the
    datetime branch of line 289 never runs. *)
Lemma normalise_run df w d :
  heap w !! df = Some d →
  normalise str_float df w =
    (mkWorld (<[df := loaded_frame str_float d]> (heap w)) (events w) (stdout w),
     inr (rename_column <$> df_labels d)).
Proof.
  intros Hd. unfold normalise, mbind, M_bind, get_df, update_df. cbn.
  rewrite (alter_Some _ _ _ _ Hd), lookup_total_insert_eq.
  rewrite (lookup_total_correct _ _ _ Hd), set_columns_rename.
  erewrite for_each_adjust_run by apply lookup_insert_eq.
  cbn. rewrite insert_insert_eq, stringify_labels. unfold mret, M_ret.
  f_equal; [|f_equal].
  - f_equal. f_equal. unfold loaded_frame. cbn [df_nrows df_columns]. f_equal.
    rewrite <- list_fmap_compose. apply list_fmap_ext.
    intros i [label s] Hi. cbn. rewrite bool_decide_eq_true_2; [done|].
    unfold df_labels. cbn [df_columns].
    rewrite <- list_fmap_compose. apply list_elem_of_fmap.
    exists (label, s). split; [done|]. by eapply list_elem_of_lookup_2.
  - unfold df_labels. cbn [df_columns]. rewrite <- !list_fmap_compose.
    apply list_fmap_ext. by intros _ [label s] _.
Qed.

End LoaderFacts.

(** ** The loader: what the database and the console see *)

Section LoaderTrace.

Variable str_float : float64 -> string.
Variable db_raises : list Event -> Call -> option string.

(** Dropping and creating the table never raises, leaves the frames
    alone and sends no insert. *)
Lemma recreate_table_run columns table_name schema w :
  ∃ es ls,
    recreate_table db_raises columns table_name schema w =
      (mkWorld (heap w) (events w ++ es) (stdout w ++ ls), inr tt) ∧
    Forall (fun ev => is_insert ev = false) es.
Proof.
  unfold recreate_table, try_except, mbind, M_bind, print, db. cbn.
  repeat (match goal with
          | |- context [db_raises ?h ?c] => destruct (db_raises h c) eqn:?; cbn
          end);
    eexists _, _; (split; [rewrite <- ?(app_assoc (events w)), <- ?(app_assoc (stdout w));
                            reflexivity|]);
    repeat (apply Forall_cons; split; [reflexivity|]); try apply Forall_nil_2;
    repeat (apply Forall_app; split);
    repeat (apply Forall_cons; split; [reflexivity|]); apply Forall_nil_2.
Qed.

Lemma upload_row_run df columns table_name schema chunk_print_size item w :
  upload_row db_raises df columns table_name schema chunk_print_size item w =
    (row_step db_raises df columns table_name schema chunk_print_size w item, inr tt).
Proof.
  destruct item as [index row].
  unfold upload_row, row_step, try_except, is_chunk_start, mbind, M_bind, mret, M_ret,
    raise, print, db, get_df.
  cbn [fst snd]. destruct (chunk_print_size =? 0)%Z; [cbn; by rewrite <- app_assoc|].
  destruct (Z.of_nat index mod chunk_print_size =? 0)%Z; cbn;
    destruct (db_raises _ _); cbn; by rewrite ?app_nil_r, <- ?app_assoc.
Qed.

Lemma for_each_upload_run df columns table_name schema chunk_print_size items : ∀ w,
  for_each items (upload_row db_raises df columns table_name schema chunk_print_size) w =
    (foldl (row_step db_raises df columns table_name schema chunk_print_size) w items, inr tt).
Proof.
  induction items as [|item items IH]; intros w; cbn [for_each foldl]; [done|].
  unfold mbind, M_bind. by rewrite upload_row_run, IH.
Qed.

Lemma inserts_calls stmt rows : ∀ history,
  ev_call <$> inserts db_raises stmt history rows = Execute stmt <$> rows.
Proof. induction rows as [|row rest IH]; intros history; cbn; [done|]. by rewrite IH. Qed.

Lemma inserts_all_insert columns table_name schema rows : ∀ history,
  Forall (fun ev => is_insert ev = true)
    (inserts db_raises (insert_statement columns table_name schema) history rows).
Proof.
  induction rows as [|row rest IH]; intros history; cbn [inserts]; constructor; [done|apply IH].
Qed.

Section Rows.

Context (df : loc) (columns : list string) (table_name schema : string)
        (chunk_print_size : Z).

Local Abbreviation step := (row_step db_raises df columns table_name schema chunk_print_size).
Local Abbreviation stmt := (insert_statement columns table_name schema).

Lemma rows_heap items : ∀ w, heap (foldl step w items) = heap w.
Proof.
  induction items as [|item items IH]; intros w; cbn [foldl]; [done|].
  rewrite IH. unfold row_step. by destruct (chunk_print_size =? 0)%Z.
Qed.

Lemma rows_stdout_grows items : ∀ w, ∃ ls, stdout (foldl step w items) = stdout w ++ ls.
Proof.
  induction items as [|item items IH]; intros w; cbn [foldl].
  - exists []. by rewrite app_nil_r.
  - destruct (IH (step w item)) as [ls ->].
    unfold row_step. destruct (chunk_print_size =? 0)%Z; cbn [stdout].
    + eexists. by rewrite <- app_assoc.
    + eexists. by rewrite <- !app_assoc.
Qed.

Lemma rows_events_zero items : ∀ w,
  chunk_print_size = 0%Z → events (foldl step w items) = events w.
Proof.
  intros w ->. revert w.
  induction items as [|item items IH]; intros w; cbn [foldl]; [done|].
  by rewrite IH.
Qed.

Lemma rows_events items : ∀ w,
  chunk_print_size ≠ 0%Z →
  events (foldl step w items) = events w ++ inserts db_raises stmt (events w) items.*2.
Proof.
  intros w Hne. apply Z.eqb_neq in Hne. revert w.
  induction items as [|item items IH]; intros w; cbn [foldl fmap list_fmap inserts].
  - by rewrite app_nil_r.
  - assert (events (step w item) =
            events w ++ [mkEvent (Execute stmt item.2)
                           (db_raises (events w) (Execute stmt item.2))]) as Hstep
      by (unfold row_step; by rewrite Hne).
    by rewrite IH, Hstep, <- app_assoc.
Qed.

(** A failed insert leaves its two lines on the console. *)
Lemma rows_failure_logged items : ∀ w k index row msg,
  chunk_print_size ≠ 0%Z →
  items !! k = Some (index, row) →
  ev_raised <$> inserts db_raises stmt (events w) items.*2 !! k = Some (Some msg) →
  Text ("Could not upload " +:+ Py.str_N (N.of_nat index)) ∈ stdout (foldl step w items) ∧
  ExceptionLine (DriverError msg) ∈ stdout (foldl step w items).
Proof.
  intros w k index row msg Hne. revert w k.
  induction items as [|item items IH]; intros w k Hk Hev; [done|].
  cbn [foldl]. destruct k as [|k].
  - injection Hk as ->. cbn in Hev. injection Hev as Hev.
    destruct (rows_stdout_grows items (step w (index, row))) as [ls ->].
    unfold row_step. apply Z.eqb_neq in Hne. rewrite Hne. cbn [fst snd stdout].
    rewrite Hev.
    rewrite !elem_of_app, !elem_of_cons.
    split; [left; right; by left|left; right; right; by left].
  - cbn in Hk, Hev. apply (IH (step w item) k Hk).
    assert (events (step w item) =
            events w ++ [mkEvent (Execute stmt item.2)
                           (db_raises (events w) (Execute stmt item.2))]) as ->; [|exact Hev].
    apply Z.eqb_neq in Hne. unfold row_step. by rewrite Hne.
Qed.

End Rows.

End LoaderTrace.

(** ** Running [upload_to_sql] *)

Lemma bind_run {A B : Type} (c : M A) (k : A → M B) (w w' : World) (x : A) :
  c w = (w', inr x) → (c ≫= k) w = k x w'.
Proof. intros H. unfold mbind, M_bind. by rewrite H. Qed.

Lemma print_run (l : Line) (w : World) :
  print l w = (mkWorld (heap w) (events w) (stdout w ++ [l]), inr tt).
Proof. done. Qed.

Section LoaderRun.

Variable str_float : float64 -> string.
Variable db_raises : list Event -> Call -> option string.

Lemma upload_to_sql_run df table_name schema drop chunk_print_size w d :
  heap w !! df = Some d →
  ∃ table_events ls,
    Forall (fun ev => is_insert ev = false) table_events ∧
    let w3 := after_rows str_float db_raises df d table_name schema chunk_print_size w table_events ls in
    let r := db_raises (events w3) Commit in
    upload_to_sql str_float db_raises df table_name schema drop chunk_print_size w =
      (mkWorld (heap w3) (events w3 ++ [mkEvent Commit r])
         (stdout w3 ++ match r with
                       | Some _ => []
                       | None => [Text "Done!"]
                       end),
       match r with
       | Some msg => inl (DriverError msg)
       | None => inr tt
       end).
Proof.
  intros Hd. unfold upload_to_sql, after_rows.
  set (columns := rename_column <$> df_labels d).
  erewrite (bind_run (print _)) by apply print_run.
  erewrite (bind_run (print _)) by apply print_run.
  erewrite (bind_run (normalise _ _)) by (apply normalise_run; exact Hd).
  cbn [heap events stdout].
  set (w1 := mkWorld _ _ _).
  assert (∃ es ls,
    Forall (fun ev => is_insert ev = false) es ∧
    (if drop then recreate_table db_raises columns table_name schema else mret tt) w1
      = (mkWorld (heap w1) (events w1 ++ es) (stdout w1 ++ ls), inr tt))
    as (es & ls & Hes & Htable).
  { destruct drop.
    - destruct (recreate_table_run db_raises columns table_name schema w1)
        as (es & ls & Hrun & Hes). by exists es, ls.
    - exists [], []. split; [constructor|].
      unfold mret, M_ret. subst w1. cbn. by rewrite !app_nil_r. }
  erewrite bind_run by exact Htable.
  subst w1. cbn [heap events stdout].
  erewrite (bind_run (get_df _)) by reflexivity.
  cbn [heap]. rewrite lookup_total_insert_eq.
  erewrite (bind_run (print _)) by apply print_run.
  erewrite (bind_run (print _)) by apply print_run.
  erewrite (bind_run (for_each _ _)) by apply for_each_upload_run.
  cbn [heap events stdout].
  rewrite <- !(app_assoc (stdout w)).
  match goal with
  | |- context [foldl _ (mkWorld _ _ (stdout w ++ ?l)) _] => exists es, l
  end.
  split; [exact Hes|]. cbv zeta.
  unfold mbind, M_bind, db, print.
  by destruct (db_raises _ Commit); cbn; rewrite ?app_nil_r.
Qed.

End LoaderRun.

(** ** Claims about [upload_to_sql] *)

Lemma replace_hit old new r : Py.replace old new (String old r) = new +:+ Py.replace old new r.
Proof. cbn. by rewrite Ascii.eqb_refl. Qed.

Lemma replace_miss old new c r :
  Ascii.eqb c old = false → Py.replace old new (String c r) = String c (Py.replace old new r).
Proof. intros H. cbn. by rewrite H. Qed.

Lemma rename_column_chars y : rename_column y = rename_chars y.
Proof.
  unfold rename_column. induction y as [|c r IH]; [done|].
  cbn [rename_chars].
  destruct (Ascii.eqb c " ") eqn:Hsp.
  - apply Ascii.eqb_eq in Hsp as ->. rewrite replace_hit.
    change ("_" +:+ ?x) with (String "_" x).
    rewrite !replace_miss by done. cbn. by rewrite IH.
  - rewrite (replace_miss " ") by done.
    destruct (Ascii.eqb c ":") eqn:Hcolon; cbn [orb].
    + apply Ascii.eqb_eq in Hcolon as ->. rewrite replace_hit. exact IH.
    + rewrite (replace_miss ":") by done.
      destruct (Ascii.eqb c "(") eqn:Hopen; cbn [orb].
      * apply Ascii.eqb_eq in Hopen as ->. rewrite replace_hit. exact IH.
      * rewrite (replace_miss "(") by done.
        destruct (Ascii.eqb c ")") eqn:Hclose.
        -- apply Ascii.eqb_eq in Hclose as ->. rewrite replace_hit. exact IH.
        -- rewrite (replace_miss ")") by done. cbn [Py.lower]. by rewrite IH.
Qed.

(** C4. Every cell is turned into text, but a cell of a datetime column is
    sent in the default rendering of its timestamp, not as YYYY-MM-DD: the
    column is already text when line 288 looks for datetime columns. *)
Theorem C4_dates_keep_default_rendering (str_float : float64 → string) :
  let w' := (upload_to_sql str_float (fun _ _ => None) 0 "t" "dbo" false 50
               (mkWorld {[ 0 := dated ]} [] [])).1 in
  ev_call <$> events w' =
    [ Execute (InsertInto "dbo" "t" "when" "?") [VStr "2024-01-05 00:00:00+00:00"];
      Commit ] ∧
  strftime_ymd (mkTimestamp 2024 1 5 0 0 0) = "2024-01-05".
Proof. vm_compute. done. Qed.

(** C10. The loader rewrites the caller's frame where it is: after the
    call the reference holds the same rows with the labels rewritten and
    every cell replaced by its text, and no other frame has changed. *)
Theorem C10_frame_mutated_in_place (str_float : float64 → string)
    (db_raises : list Event → Call → option string)
    df table_name schema (drop : bool) chunk_print_size w d :
  heap w !! df = Some d →
  let w' := (upload_to_sql str_float db_raises df table_name schema drop
               chunk_print_size w).1 in
  ∃ d',
    heap w' = <[df := d']> (heap w) ∧
    df_nrows d' = df_nrows d ∧
    df_labels d' = rename_chars <$> df_labels d ∧
    (df_columns d').*2 =
      (fun s => ObjectSeries ((fun v => VStr (py_str str_float v)) <$> cells s))
        <$> (df_columns d).*2.
Proof.
  intros Hd w'. subst w'.
  destruct (upload_to_sql_run str_float db_raises df table_name schema drop
              chunk_print_size w d Hd) as (es & ls & _ & ->).
  cbn [fst heap]. unfold after_rows. rewrite rows_heap. cbn [heap].
  exists (loaded_frame str_float d). split; [done|]. split; [done|].
  unfold df_labels, loaded_frame. cbn [df_columns].
  rewrite <- !list_fmap_compose. split; apply list_fmap_ext; intros _ [label s] _; cbn.
  - apply rename_column_chars.
  - done.
Qed.

Lemma C10_witness :
  ∃ d',
    heap (upload_to_sql (fun _ => "nan") (fun _ _ => None) 7 "t" "dbo" true 50
            one_frame_world).1 = <[7 := d']> (heap one_frame_world) ∧
    df_nrows d' = df_nrows sales ∧
    df_labels d' = rename_chars <$> df_labels sales ∧
    (df_columns d').*2 =
      (fun s => ObjectSeries ((fun v => VStr (py_str (fun _ => "nan") v)) <$> cells s))
        <$> (df_columns sales).*2.
Proof.
  refine (C10_frame_mutated_in_place (fun _ => "nan") (fun _ _ => None) 7 "t" "dbo" true 50
            one_frame_world sales _).
  vm_compute. reflexivity.
Defined.

Lemma filter_inserts_none (es : list Event) :
  Forall (fun ev => is_insert ev = false) es →
  filter (fun ev => is_insert ev = true) es = [].
Proof.
  induction 1 as [|ev es Hev _ IH]; [done|].
  rewrite filter_cons_False by congruence. exact IH.
Qed.

Lemma filter_inserts_all (es : list Event) :
  Forall (fun ev => is_insert ev = true) es →
  filter (fun ev => is_insert ev = true) es = es.
Proof.
  induction 1 as [|ev es Hev _ IH]; [done|].
  rewrite filter_cons_True by done. by rewrite IH.
Qed.

Lemma iterrows_lookup d k index row :
  iterrows d !! k = Some (index, row) → index = k ∧ k < df_nrows d.
Proof.
  unfold iterrows. rewrite list_lookup_fmap.
  destruct (seq 0 (df_nrows d) !! k) as [i|] eqn:Hk; [|done].
  apply lookup_seq in Hk as [-> ?]. by intros [= <- _].
Qed.

Lemma iterrows_length d : length (iterrows d) = df_nrows d.
Proof. unfold iterrows. by rewrite length_fmap, length_seq. Qed.

(** C8. If the insert of row number [k] raises, the run still sends one
    insert per row of the table, in order, then commits; the failure is
    printed with the row number. *)
Theorem C8_continue_on_row_failure (str_float : float64 → string)
    (db_raises : list Event → Call → option string)
    df table_name schema (drop : bool) chunk_print_size w d k msg :
  heap w !! df = Some d →
  let w' := (upload_to_sql str_float db_raises df table_name schema drop
               chunk_print_size w).1 in
  let row_events :=
    filter (fun ev => is_insert ev = true) (skipn (length (events w)) (events w')) in
  ev_raised <$> row_events !! k = Some (Some msg) →
  ev_call <$> row_events =
    Execute (insert_statement (rename_column <$> df_labels d) table_name schema)
      <$> (iterrows (loaded_frame str_float d)).*2 ∧
  length row_events = df_nrows d ∧
  ev_call <$> last (events w') = Some Commit ∧
  Text ("Could not upload " +:+ Py.str_N (N.of_nat k)) ∈ stdout w' ∧
  ExceptionLine (DriverError msg) ∈ stdout w'.
Proof.
  intros Hd w' row_events. subst w' row_events.
  destruct (upload_to_sql_run str_float db_raises df table_name schema drop
              chunk_print_size w d Hd) as (es & ls & Hes & ->).
  cbn [fst events stdout]. unfold after_rows.
  set (w2 := mkWorld _ (events w ++ es) _).
  set (items := iterrows (loaded_frame str_float d)).
  set (columns := rename_column <$> df_labels d).
  rewrite last_snoc.
  destruct (decide (chunk_print_size = 0%Z)) as [Hz|Hnz].
  - rewrite (rows_events_zero db_raises _ _ _ _ _ _ _ Hz). subst w2. cbn [events].
    rewrite <- app_assoc, drop_app_length, filter_app, (filter_inserts_none _ Hes).
    rewrite (filter_cons_False _ (mkEvent Commit _)) by done. by rewrite filter_nil.
  - rewrite (rows_events db_raises _ _ _ _ _ _ _ Hnz). subst w2. cbn [events].
    rewrite <- !app_assoc, drop_app_length, !filter_app, (filter_inserts_none _ Hes).
    rewrite (filter_inserts_all _ (inserts_all_insert db_raises _ _ _ _ _)).
    rewrite (filter_cons_False _ (mkEvent Commit _)) by done.
    rewrite filter_nil, app_nil_l, app_nil_r.
    intros Hk. rewrite inserts_calls.
    split; [done|]. split.
    { rewrite <- (length_fmap ev_call), inserts_calls, !length_fmap.
      exact (iterrows_length (loaded_frame str_float d)). }
    split; [done|].
    assert (is_Some (items !! k)) as [[index row] Hitem].
    { apply lookup_lt_is_Some.
      destruct (inserts db_raises _ _ items.*2 !! k) as [ev|] eqn:Hev; [|done].
      apply lookup_lt_Some in Hev.
      rewrite <- (length_fmap ev_call), inserts_calls, !length_fmap in Hev. done. }
    destruct (iterrows_lookup _ _ _ _ Hitem) as [-> _].
    destruct (rows_failure_logged db_raises df columns table_name schema chunk_print_size
                items (mkWorld (<[df:=loaded_frame str_float d]> (heap w)) (events w ++ es)
                         (stdout w ++ ls)) k k row msg Hnz Hitem Hk) as [H1 H2].
    rewrite !elem_of_app. by split; left.
Qed.

Lemma C8_witness :
  let w' := (upload_to_sql (fun _ => "nan") refuse_five 0 "t" "dbo" true 50
               ten_rows_world).1 in
  let row_events :=
    filter (fun ev => is_insert ev = true) (skipn (length (events ten_rows_world)) (events w')) in
  ev_call <$> row_events =
    Execute (insert_statement (rename_column <$> df_labels ten_rows) "t" "dbo")
      <$> (iterrows (loaded_frame (fun _ => "nan") ten_rows)).*2 ∧
  length row_events = df_nrows ten_rows ∧
  ev_call <$> last (events w') = Some Commit ∧
  Text ("Could not upload " +:+ Py.str_N (N.of_nat 5)) ∈ stdout w' ∧
  ExceptionLine (DriverError "conversion failed") ∈ stdout w'.
Proof.
  refine (C8_continue_on_row_failure (fun _ => "nan") refuse_five 0 "t" "dbo" true 50
            ten_rows_world ten_rows 5 "conversion failed" _ _);
    vm_compute; reflexivity.
Defined.

(** * Further properties *)

(** String constants are named before a case analysis, which keeps the
    cases small. *)
Ltac hide_strings :=
  repeat match goal with
         | |- context [String ?a ?s] =>
             let x := fresh "text" in generalize (String a s); intro x
         end.

Ltac run_script raises :=
  hide_strings;
  repeat match goal with
         | |- context [raises ?h ?c] => destruct (raises h c) eqn:?; cbn
         end.

Ltac unfold_script :=
  unfold attempt, attempt_or_return, mbind, Script_bind, mret, Script_ret, say, call, throw;
  cbn.

Ltac close_trace t :=
  rewrite <- ?(app_assoc (tr_calls t)), <- ?(app_assoc (tr_out t)); cbn [app];
  eexists _, _; split; [reflexivity|].

Ltac list_facts :=
  cbn; intros; cbn in *;
  repeat match goal with
         | H : _ ∈ _ :: _ |- _ => apply elem_of_cons in H as [H|H]
         | H : _ ∈ [] |- _ => by apply elem_of_nil in H
         | H : (_, _) = (_, _) |- _ => injection H as ??; subst
         | H : _ ∧ _ |- _ => destruct H
         end;
  try done; try discriminate; try (by simplify_eq).

(** ** [make_table_spatial] *)

(** X1. Whatever fails, the geometry column is tried first, the identity
    column is tried too, the last call is a commit and the last line
    printed is the closing one: a failure of the geometry step does not
    stop the key and index step. *)
Theorem spatial_steps_are_independent
    (sp_raises : list (SpatialCall * option string) → SpatialCall → option string)
    table_name schema wkt_geom_col destination_crs t :
  ∃ issued out,
    (make_table_spatial sp_raises table_name schema wkt_geom_col destination_crs t).1
      = mkTrace (tr_calls t ++ issued) (tr_out t ++ out) ∧
    head issued.*1 =
      Some (SpExecute (AddGeometryColumn schema table_name wkt_geom_col destination_crs)) ∧
    SpExecute (AddIdentityColumn schema table_name) ∈ issued.*1 ∧
    last issued.*1 = Some SpCommit ∧
    last out = Some "Done!".
Proof.
  unfold make_table_spatial. unfold_script. run_script sp_raises; close_trace t.
  all: cbn; repeat split; set_solver.
Qed.

(** X2. The identity column, the primary key and the spatial index share
    one [try] block: when the identity column or the primary key fails,
    the spatial index is not attempted, and when the identity column
    fails neither is the primary key. *)
Theorem spatial_key_failure_skips_index
    (sp_raises : list (SpatialCall * option string) → SpatialCall → option string)
    table_name schema wkt_geom_col destination_crs t :
  ∃ issued out,
    (make_table_spatial sp_raises table_name schema wkt_geom_col destination_crs t).1
      = mkTrace (tr_calls t ++ issued) (tr_out t ++ out) ∧
    (∀ msg, (SpExecute (AddIdentityColumn schema table_name), Some msg) ∈ issued →
       Forall (fun c => adds_primary_key c = false ∧ creates_spatial_index c = false)
         issued.*1) ∧
    (∀ name msg, (SpExecute (AddPrimaryKey schema table_name name), Some msg) ∈ issued →
       Forall (fun c => creates_spatial_index c = false) issued.*1).
Proof.
  unfold make_table_spatial. unfold_script. run_script sp_raises; close_trace t.
  all: split; list_facts; repeat constructor.
Qed.

(** X3. Only the final commit can make [make_table_spatial] raise: the
    call ends with the exception of that commit when it raises, and
    normally otherwise, whatever the statements before it did. *)
Theorem spatial_only_final_commit_escapes
    (sp_raises : list (SpatialCall * option string) → SpatialCall → option string)
    table_name schema wkt_geom_col destination_crs t :
  let run := make_table_spatial sp_raises table_name schema wkt_geom_col destination_crs t in
  ∃ r,
    last (tr_calls run.1) = Some (SpCommit, r) ∧
    run.2 = match r with
            | Some msg => inl msg
            | None => inr tt
            end.
Proof.
  unfold make_table_spatial. unfold_script. run_script sp_raises.
  all: eexists; rewrite last_snoc; split; reflexivity.
Qed.

(** X4. When no statement fails, the calls are, in this order: geometry
    column, commit, identity column, primary key, commit, spatial index,
    commit. The constraint is named after the table as given, the index
    after the table name in lower case. *)
Theorem spatial_calls_when_nothing_fails
    (sp_raises : list (SpatialCall * option string) → SpatialCall → option string)
    table_name schema wkt_geom_col destination_crs t :
  (∀ h c, sp_raises h c = None) →
  make_table_spatial sp_raises table_name schema wkt_geom_col destination_crs t =
    (mkTrace
       (tr_calls t ++
        [ (SpExecute (AddGeometryColumn schema table_name wkt_geom_col destination_crs), None);
          (SpCommit, None);
          (SpExecute (AddIdentityColumn schema table_name), None);
          (SpExecute (AddPrimaryKey schema table_name (table_name +:+ "_constraint_sidx")),
           None);
          (SpCommit, None);
          (SpExecute (CreateSpatialIndex ("spatial_idx_" +:+ Py.lower table_name)
                        schema table_name), None);
          (SpCommit, None) ])
       (tr_out t ++
        [ "Making [LMDW].[" +:+ schema +:+ "].[" +:+ table_name
            +:+ "] spatial and adding spatial index.";
          "Create a geometry column."; "Create a spatial index.";
          "Setting spatial index..."; "Done!" ]),
     inr tt).
Proof.
  intros Hok. unfold make_table_spatial. unfold_script. rewrite !Hok. cbn.
  by rewrite <- !(app_assoc (tr_calls t)), <- !(app_assoc (tr_out t)).
Qed.

Lemma spatial_calls_when_nothing_fails_witness :
  (make_table_spatial (fun _ _ => None) "Parcels" "dbo" "geom_wkt" "4326" (mkTrace [] [])).1.(tr_calls).*1
  = [ SpExecute (AddGeometryColumn "dbo" "Parcels" "geom_wkt" "4326");
      SpCommit;
      SpExecute (AddIdentityColumn "dbo" "Parcels");
      SpExecute (AddPrimaryKey "dbo" "Parcels" "Parcels_constraint_sidx");
      SpCommit;
      SpExecute (CreateSpatialIndex "spatial_idx_parcels" "dbo" "Parcels");
      SpCommit ].
Proof.
  rewrite (spatial_calls_when_nothing_fails (fun _ _ => None) "Parcels" "dbo" "geom_wkt"
             "4326" (mkTrace [] []) (fun _ _ => eq_refl)).
  reflexivity.
Defined.

(** ** [upload_to_google_sheets] *)

Ltac run_upload gs_raises update_returns :=
  unfold upload_to_google_sheets, select_worksheet, worksheet_update, getitem,
    differs_from_zero;
  unfold_script;
  hide_strings;
  repeat match goal with
         | |- context [gs_raises ?h ?c] => destruct (gs_raises h c) eqn:?; cbn
         | |- context [update_returns ?h !! ?k] => destruct (update_returns h !! k) eqn:?; cbn
         end.

(** X5. When the service account cannot be opened, nothing else is
    called: the failure is printed and the function returns normally. *)
Theorem sheets_authentication_failure_stops
    (fillna_values : DataFrame → list (list PyVal))
    (gs_raises : list (GCall * option string) → GCall → option string)
    (update_returns : list (GCall * option string) → gmap string string)
    dataframe bookname sheet new_book clear authfile t msg :
  gs_raises (tr_calls t) (ServiceAccount authfile) = Some msg →
  upload_to_google_sheets fillna_values gs_raises update_returns dataframe bookname sheet
    new_book clear authfile t =
    (mkTrace (tr_calls t ++ [(ServiceAccount authfile, Some msg)])
       (tr_out t ++
        [ "Loading in df with " +:+ Py.str_N (N.of_nat (df_ncols dataframe))
            +:+ " columns and " +:+ Py.str_N (N.of_nat (df_nrows dataframe)) +:+ " rows";
          "Could not connect,check filename";
          "Exception: " +:+ msg ]),
     inr tt).
Proof.
  intros Hauth. unfold upload_to_google_sheets. unfold_script. rewrite Hauth. cbn.
  by rewrite <- !(app_assoc (tr_out t)).
Qed.

Lemma sheets_authentication_failure_stops_witness :
  (upload_to_google_sheets (fun _ => []) (fun _ _ => Some "no key") (fun _ => ∅)
     three_rows "book" (SheetIndex 0) true true "key.json" (mkTrace [] [])).1.(tr_calls)
  = [(ServiceAccount "key.json", Some "no key")].
Proof.
  rewrite (sheets_authentication_failure_stops (fun _ => []) (fun _ _ => Some "no key")
             (fun _ => ∅) three_rows "book" (SheetIndex 0) true true "key.json"
             (mkTrace [] []) "no key" eq_refl).
  reflexivity.
Defined.

(** X6. The sheet is cleared only in an existing workbook and only when
    asked: if [worksheet.clear()] is called, then [new_book] is false and
    [clear] is true. *)
Theorem sheets_clear_only_existing_book
    (fillna_values : DataFrame → list (list PyVal))
    (gs_raises : list (GCall * option string) → GCall → option string)
    (update_returns : list (GCall * option string) → gmap string string)
    dataframe bookname sheet new_book clear authfile t :
  ∃ issued out,
    (upload_to_google_sheets fillna_values gs_raises update_returns dataframe bookname sheet
       new_book clear authfile t).1 = mkTrace (tr_calls t ++ issued) (tr_out t ++ out) ∧
    (Clear ∈ issued.*1 → new_book = false ∧ clear = true).
Proof.
  destruct sheet, new_book, clear; run_upload gs_raises update_returns; close_trace t.
  all: list_facts.
Qed.

(** X7. An exception leaves [upload_to_google_sheets] exactly when a call
    outside the [try] blocks raises (creating or sharing the workbook,
    selecting a sheet by index, adding a sheet, clearing): that call is
    then the last one made. Failures of the service account, of opening
    the workbook, of looking a sheet up by name and of the update do not
    leave the function. *)
Theorem sheets_escaping_exceptions
    (fillna_values : DataFrame → list (list PyVal))
    (gs_raises : list (GCall * option string) → GCall → option string)
    (update_returns : list (GCall * option string) → gmap string string)
    dataframe bookname sheet new_book clear authfile t :
  let run := upload_to_google_sheets fillna_values gs_raises update_returns dataframe
               bookname sheet new_book clear authfile t in
  ∃ issued out,
    run.1 = mkTrace (tr_calls t ++ issued) (tr_out t ++ out) ∧
    (∀ msg, run.2 = inl msg →
       ∃ c, last issued = Some (c, Some msg) ∧ unguarded c = true) ∧
    (∀ c msg, (c, Some msg) ∈ issued → unguarded c = true → run.2 = inl msg).
Proof.
  destruct sheet, new_book, clear; run_upload gs_raises update_returns; close_trace t.
  all: split; list_facts.
  all: try (injection H as <-; eexists; split; reflexivity).
Qed.

(** X8. A sheet chosen by name that cannot be looked up is added under
    that very name, with 100000 rows and 200 columns; a sheet chosen by
    index is never added. *)
Theorem sheets_missing_name_is_added
    (fillna_values : DataFrame → list (list PyVal))
    (gs_raises : list (GCall * option string) → GCall → option string)
    (update_returns : list (GCall * option string) → gmap string string)
    dataframe bookname sheet new_book clear authfile t :
  ∃ issued out,
    (upload_to_google_sheets fillna_values gs_raises update_returns dataframe bookname sheet
       new_book clear authfile t).1 = mkTrace (tr_calls t ++ issued) (tr_out t ++ out) ∧
    (∀ name msg, (WorksheetByName name, Some msg) ∈ issued →
       sheet = SheetName name ∧ AddWorksheet name 100000 200 ∈ issued.*1) ∧
    (∀ title rows cols, AddWorksheet title rows cols ∈ issued.*1 →
       sheet = SheetName title ∧ rows = 100000%Z ∧ cols = 200%Z).
Proof.
  destruct sheet, new_book, clear; run_upload gs_raises update_returns; close_trace t.
  all: split; list_facts.
  all: try (split; [done|set_solver]).
Qed.

(** X9. Once the update is attempted the function ends normally, whatever
    the update does: the update is the last call, it carries the column
    labels as first row followed by the rows of the table, and the last
    line printed is [Done]. *)
Theorem sheets_update_is_last
    (fillna_values : DataFrame → list (list PyVal))
    (gs_raises : list (GCall * option string) → GCall → option string)
    (update_returns : list (GCall * option string) → gmap string string)
    dataframe bookname sheet new_book clear authfile t :
  let run := upload_to_google_sheets fillna_values gs_raises update_returns dataframe
               bookname sheet new_book clear authfile t in
  ∃ issued out,
    run.1 = mkTrace (tr_calls t ++ issued) (tr_out t ++ out) ∧
    (∀ payload r, (Update payload, r) ∈ issued →
       payload = (VStr <$> df_labels dataframe) :: fillna_values dataframe ∧
       last issued = Some (Update payload, r) ∧
       run.2 = inr tt ∧
       last out = Some "Done").
Proof.
  destruct sheet, new_book, clear; run_upload gs_raises update_returns; close_trace t.
  all: list_facts.
Qed.

(** X10. The workbook is created and shared only for a new book, before
    it is opened; for an existing book the first call after the service
    account is the opening of the workbook. *)
Theorem sheets_create_only_new_book
    (fillna_values : DataFrame → list (list PyVal))
    (gs_raises : list (GCall * option string) → GCall → option string)
    (update_returns : list (GCall * option string) → gmap string string)
    dataframe bookname sheet new_book clear authfile t :
  ∃ issued out,
    (upload_to_google_sheets fillna_values gs_raises update_returns dataframe bookname sheet
       new_book clear authfile t).1 = mkTrace (tr_calls t ++ issued) (tr_out t ++ out) ∧
    head issued.*1 = Some (ServiceAccount authfile) ∧
    (∀ name, Create name ∈ issued.*1 → new_book = true ∧ name = bookname) ∧
    (new_book = false → gs_raises (tr_calls t) (ServiceAccount authfile) = None →
       issued.*1 !! 1 = Some (Open bookname)).
Proof.
  destruct sheet, new_book, clear; run_upload gs_raises update_returns; close_trace t.
  all: repeat split; list_facts; try congruence.
Qed.

(** ** [friendlize], further *)

Lemma contains_char_cons a c r :
  Py.contains (String a EmptyString) (String c r)
  = Ascii.eqb a c || Py.contains (String a EmptyString) r.
Proof. cbn. by rewrite andb_true_r. Qed.

Lemma underscore_upper_char c : Ascii.eqb "_" (Py.upper_char c) = Ascii.eqb c "_".
Proof. by_cases_on_char c. Qed.

Lemma underscore_lower_char c : Ascii.eqb "_" (Py.lower_char c) = Ascii.eqb c "_".
Proof. by_cases_on_char c. Qed.

Lemma upper_char_idemp c : Py.upper_char (Py.upper_char c) = Py.upper_char c.
Proof. by_cases_on_char c. Qed.

Lemma friendlize_from_no_underscore b s : Py.contains "_" (friendlize_from b s) = false.
Proof.
  revert b. induction s as [|c r IH]; intros b; [done|].
  cbn [friendlize_from]. destruct (Ascii.eqb c "_") eqn:Hc.
  - by rewrite contains_char_cons, IH.
  - rewrite contains_char_cons, IH.
    destruct b; by rewrite ?underscore_upper_char, ?underscore_lower_char, Hc.
Qed.

Lemma friendlize_from_lower s :
  Py.contains "_" s = false → friendlize_from false s = Py.lower s.
Proof.
  induction s as [|c r IH]; [done|].
  rewrite contains_char_cons. intros [Hc Hr]%orb_false_elim.
  cbn [friendlize_from Py.lower]. rewrite Ascii.eqb_sym, Hc. by rewrite IH.
Qed.

(** X11. [friendlize] never changes the number of characters. *)
Theorem friendlize_keeps_length s : String.length (friendlize s) = String.length s.
Proof. rewrite friendlize_pointwise. apply friendlize_from_length. Qed.

Lemma no_underscore_after_friendlize s : Py.contains "_" (friendlize s) = false.
Proof. rewrite friendlize_pointwise. apply friendlize_from_no_underscore. Qed.

Lemma friendlize_is_capitalize s :
  Py.contains "_" s = false → friendlize s = Py.capitalize s.
Proof.
  rewrite friendlize_pointwise. destruct s as [|c r]; [done|].
  rewrite contains_char_cons. intros [Hc Hr]%orb_false_elim.
  cbn [friendlize_from Py.capitalize]. rewrite Ascii.eqb_sym, Hc.
  by rewrite friendlize_from_lower.
Qed.

(** X12. The result of [friendlize] contains no underscore. *)
Theorem friendlize_has_no_underscore s : Py.contains "_" (friendlize s) = false.
Proof. apply no_underscore_after_friendlize. Qed.

(** X13. On an ASCII string without underscores [friendlize] is
    [capitalize]: the first character in upper case and all the others in
    lower case, also those that follow a space. *)
Theorem friendlize_without_underscore s :
  ascii_only s = true →
  Py.contains "_" s = false → friendlize s = Py.capitalize s.
Proof. intros _. apply friendlize_is_capitalize. Qed.

Lemma friendlize_without_underscore_witness :
  friendlize "Median Income" = Py.capitalize "Median Income".
Proof. apply friendlize_without_underscore; reflexivity. Defined.

(** X14. A second application of [friendlize] may still change the
    string, a third never does. *)
Theorem friendlize_settles_after_two s :
  friendlize (friendlize (friendlize s)) = friendlize (friendlize s).
Proof.
  rewrite (friendlize_is_capitalize (friendlize (friendlize s)))
    by apply no_underscore_after_friendlize.
  rewrite (friendlize_is_capitalize (friendlize s))
    by apply no_underscore_after_friendlize.
  destruct (friendlize s) as [|c r]; [done|].
  cbn [Py.capitalize]. by rewrite upper_char_idemp, lower_idemp.
Qed.

(** X15. On an ASCII string, cutting to the first [n] characters and then
    applying [friendlize] gives the first [n] characters of the
    friendlified string. *)
Theorem friendlize_commutes_with_cut n s :
  ascii_only s = true →
  friendlize (Py.slice_to n s) = Py.slice_to n (friendlize s).
Proof. intros _. rewrite !friendlize_pointwise. apply friendlize_from_slice. Qed.

Lemma friendlize_commutes_with_cut_witness :
  friendlize (Py.slice_to 31 "population_totals_by_county_and_year_2024")
  = Py.slice_to 31 (friendlize "population_totals_by_county_and_year_2024").
Proof. apply friendlize_commutes_with_cut. reflexivity. Defined.

(** ** [save_dfs_as_xl], further *)

(** The format of column [j] of sheet [i] is the one lines 158-178 give
    for the display name of table [i] and the label and values of column
    [j]. *)
Lemma exported_column_format list_of_frames col_format path file_name
    sheet_names tab_names friendly_names i j ws bdf T C series :
  xl_sheets (save_dfs_as_xl list_of_frames col_format path file_name sheet_names
               tab_names friendly_names) !! i = Some ws →
  list_of_frames !! i = Some bdf →
  df_columns bdf !! j = Some (C, series) →
  display_name sheet_names i = Some T →
  ws_columns ws !! j =
    Some (mkColumnSetting (j + 1) (j + 1) (num_format_of col_format T C series)).
Proof.
  intros Hws Hbdf Hcol HT.
  destruct (xl_sheets_lookup _ _ _ _ _ _ _ _ _ Hws) as (b & T' & sn & Hb & Hname & ->).
  assert (b = bdf) as -> by congruence.
  apply name_frame_display in Hname. assert (T' = T) as -> by congruence.
  cbn [ws_columns build_sheet]. by apply column_settings_lookup.
Qed.

(** X16. Without an override, a column whose name contains [%], or
    [percent] in any mix of cases, gets the percent pattern, whatever its
    type and values. *)
Theorem percent_columns list_of_frames col_format path file_name
    sheet_names tab_names friendly_names i j ws bdf T C series :
  xl_sheets (save_dfs_as_xl list_of_frames col_format path file_name sheet_names
               tab_names friendly_names) !! i = Some ws →
  list_of_frames !! i = Some bdf →
  df_columns bdf !! j = Some (C, series) →
  display_name sheet_names i = Some T →
  col_format !! T ≫= (fun per_table => per_table !! C) = None →
  Py.contains "%" C = true ∨ Py.contains "percent" (Py.lower C) = true →
  cs_cell_format <$> ws_columns ws !! j = Some (Some (add_format "0.00%")).
Proof.
  intros Hws Hbdf Hcol HT Hover Hname.
  rewrite (exported_column_format _ _ _ _ _ _ _ _ _ _ _ _ _ _ Hws Hbdf Hcol HT).
  cbn [fmap option_fmap option_map cs_cell_format]. unfold num_format_of. rewrite Hover.
  destruct STYLEBOOK_entries as (_ & _ & _ & ->).
  by destruct Hname as [-> | ->]; rewrite ?orb_true_r.
Qed.

Lemma percent_columns_witness :
  ∃ ws,
    xl_sheets (save_dfs_as_xl [sales] ∅ "./" "file" [] ∅ false) !! 0 = Some ws ∧
    cs_cell_format <$> ws_columns ws !! 1 = Some (Some (add_format "0.00%")).
Proof.
  eexists. split; [vm_compute; reflexivity|].
  refine (percent_columns [sales] ∅ "./" "file" [] ∅ false 0 1 _ sales "Sheet0" "share %"
            (FloatSeries [FFin 1 (-2); FFin 1 (-1); FFin 1 (-2)]) _ _ _ _ _ _);
    try (vm_compute; reflexivity).
  left. vm_compute. reflexivity.
Defined.

(** X17. Without an override and without a percent name, a column whose
    name contains [income], [salary] or [wage] in any mix of cases gets
    the currency pattern, whatever its type and values. *)
Theorem currency_columns list_of_frames col_format path file_name
    sheet_names tab_names friendly_names i j ws bdf T C series :
  xl_sheets (save_dfs_as_xl list_of_frames col_format path file_name sheet_names
               tab_names friendly_names) !! i = Some ws →
  list_of_frames !! i = Some bdf →
  df_columns bdf !! j = Some (C, series) →
  display_name sheet_names i = Some T →
  col_format !! T ≫= (fun per_table => per_table !! C) = None →
  Py.contains "%" C = false →
  Py.contains "percent" (Py.lower C) = false →
  Py.contains "income" (Py.lower C) = true ∨
  Py.contains "salary" (Py.lower C) = true ∨
  Py.contains "wage" (Py.lower C) = true →
  cs_cell_format <$> ws_columns ws !! j = Some (Some (add_format "$#,##0.00")).
Proof.
  intros Hws Hbdf Hcol HT Hover Hpct Hpercent Hname.
  rewrite (exported_column_format _ _ _ _ _ _ _ _ _ _ _ _ _ _ Hws Hbdf Hcol HT).
  cbn [fmap option_fmap option_map cs_cell_format]. unfold num_format_of.
  rewrite Hover, Hpct, Hpercent. cbn [orb].
  destruct STYLEBOOK_entries as (_ & -> & _ & _).
  by destruct Hname as [-> | [-> | ->]]; rewrite ?orb_true_r.
Qed.

Lemma currency_columns_witness :
  ∃ ws,
    xl_sheets (save_dfs_as_xl [payroll] ∅ "./" "file" [] ∅ false) !! 0 = Some ws ∧
    cs_cell_format <$> ws_columns ws !! 0 = Some (Some (add_format "$#,##0.00")).
Proof.
  eexists. split; [vm_compute; reflexivity|].
  refine (currency_columns [payroll] ∅ "./" "file" [] ∅ false 0 0 _ payroll "Sheet0"
            "Median_Wage" (ObjectSeries [VStr "n/a"; VNone]) _ _ _ _ _ _ _ _);
    try (vm_compute; reflexivity).
  right. right. vm_compute. reflexivity.
Defined.

(** X18. Without an override and without a percent or currency name, an
    integer column gets the thousands pattern, and a column that is
    neither integer nor float (text, boolean, datetime) gets no number
    format at all. *)
Theorem columns_by_type list_of_frames col_format path file_name
    sheet_names tab_names friendly_names i j ws bdf T C series :
  xl_sheets (save_dfs_as_xl list_of_frames col_format path file_name sheet_names
               tab_names friendly_names) !! i = Some ws →
  list_of_frames !! i = Some bdf →
  df_columns bdf !! j = Some (C, series) →
  display_name sheet_names i = Some T →
  col_format !! T ≫= (fun per_table => per_table !! C) = None →
  Py.contains "%" C = false →
  Py.contains "percent" (Py.lower C) = false →
  Py.contains "income" (Py.lower C) = false →
  Py.contains "salary" (Py.lower C) = false →
  Py.contains "wage" (Py.lower C) = false →
  (dtype series = int64 →
     cs_cell_format <$> ws_columns ws !! j = Some (Some (add_format "#,###"))) ∧
  (dtype series ≠ int64 → dtype series ≠ float64_t →
     cs_cell_format <$> ws_columns ws !! j = Some None).
Proof.
  intros Hws Hbdf Hcol HT Hover Hpct Hpercent Hincome Hsalary Hwage.
  rewrite (exported_column_format _ _ _ _ _ _ _ _ _ _ _ _ _ _ Hws Hbdf Hcol HT).
  cbn [fmap option_fmap option_map cs_cell_format]. unfold num_format_of.
  rewrite Hover, Hpct, Hpercent, Hincome, Hsalary, Hwage. cbn [orb].
  destruct STYLEBOOK_entries as (-> & _ & _ & _).
  destruct series; cbn; split; intros; done.
Qed.

Lemma columns_by_type_witness :
  ∃ ws,
    xl_sheets (save_dfs_as_xl [payroll] ∅ "./" "file" [] ∅ false) !! 0 = Some ws ∧
    cs_cell_format <$> ws_columns ws !! 3 = Some (Some (add_format "#,###")) ∧
    cs_cell_format <$> ws_columns ws !! 2 = Some None.
Proof.
  eexists. split; [vm_compute; reflexivity|]. split.
  - refine (proj1 (columns_by_type [payroll] ∅ "./" "file" [] ∅ false 0 3 _ payroll "Sheet0"
              "headcount" (IntSeries [12; 7]%Z) _ _ _ _ _ _ _ _ _ _) _);
      vm_compute; reflexivity.
  - refine (proj2 (columns_by_type [payroll] ∅ "./" "file" [] ∅ false 0 2 _ payroll "Sheet0"
              "active" (BoolSeries [true; false]) _ _ _ _ _ _ _ _ _ _) _ _);
      try (vm_compute; reflexivity); discriminate.
Defined.

(** X30. Where the string a sheet identifier is made from (override,
    display name or automatic name) is ASCII, the identifier has at most
    31 characters and is that string, friendlified if the flag is set and
    cut to 31 characters. *)
Theorem ascii_sheet_identifier_length list_of_frames col_format path file_name
    sheet_names tab_names friendly_names i ws raw :
  (Z.of_nat (length list_of_frames) ≤ PY_SSIZE_T_MAX)%Z →
  xl_sheets (save_dfs_as_xl list_of_frames col_format path file_name sheet_names
               tab_names friendly_names) !! i = Some ws →
  identifier_source sheet_names tab_names i = Some raw →
  ascii_only raw = true →
  String.length (ws_name ws) ≤ 31 ∧
  ws_name ws = Py.slice_to 31 (if friendly_names then friendlize raw else raw).
Proof.
  intros Hmax Hws Hraw _.
  destruct (xl_sheets_lookup _ _ _ _ _ _ _ _ _ Hws) as (b & T & sn & Hb & Hname & ->).
  apply lookup_lt_Some in Hb.
  pose proof (name_frame_display _ _ _ _ _ Hname) as HT.
  apply name_frame_identifier in Hname as ->.
  cbn [ws_name build_sheet]. unfold identifier_source in Hraw. unfold final_sheet_name.
  rewrite HT in *. destruct sheet_names as [|n0 ns].
  - injection HT as <-. injection Hraw as <-.
    assert (String.length ("Sheet" +:+ Py.str_N (N.of_nat i)) ≤ 24) as Hlen
      by (apply auto_name_length; lia).
    assert (String.length
              (if friendly_names then friendlize ("Sheet" +:+ Py.str_N (N.of_nat i))
               else "Sheet" +:+ Py.str_N (N.of_nat i)) ≤ 31) as Hlen'.
    { destruct friendly_names; [rewrite friendlize_length|]; lia. }
    split; [done|]. by rewrite slice_to_short.
  - cbn [fmap option_fmap option_map] in Hraw. injection Hraw as <-.
    set (raw := default T (tab_names !! T)).
    assert ((if friendly_names then friendlize (Py.slice_to 31 raw) else Py.slice_to 31 raw)
            = Py.slice_to 31 (if friendly_names then friendlize raw else raw)) as ->.
    { destruct friendly_names; [apply friendlize_slice|done]. }
    split; [apply slice_to_length|done].
Qed.

Lemma ascii_sheet_identifier_length_witness :
  ∃ ws,
    xl_sheets (save_dfs_as_xl [three_rows] ∅ "./" "file"
                 ["population_totals_by_county_and_year_2024"] ∅ true) !! 0 = Some ws ∧
    String.length (ws_name ws) ≤ 31 ∧
    ws_name ws = Py.slice_to 31 (friendlize "population_totals_by_county_and_year_2024").
Proof.
  eexists. split; [vm_compute; reflexivity|].
  apply (ascii_sheet_identifier_length [three_rows] ∅ "./" "file"
           ["population_totals_by_county_and_year_2024"] ∅ true 0).
  - vm_compute. discriminate.
  - vm_compute. reflexivity.
  - vm_compute. reflexivity.
  - vm_compute. reflexivity.
Defined.

(** X20. The layout of a sheet: the header of column [j] is written in
    row 2 of spreadsheet column [j + 1], the format of column [j] is set
    on that same spreadsheet column, the data start in row 3 and column
    1, and the title is merged over row 1 from column 1 to the last data
    column when there are at least two columns and is a single cell at
    row 1, column 1 otherwise. *)
Theorem sheet_layout list_of_frames col_format path file_name
    sheet_names tab_names friendly_names i ws bdf T :
  xl_sheets (save_dfs_as_xl list_of_frames col_format path file_name sheet_names
               tab_names friendly_names) !! i = Some ws →
  list_of_frames !! i = Some bdf →
  display_name sheet_names i = Some T →
  ws_startrow ws = 3 ∧ ws_startcol ws = 1 ∧
  (∀ j label, df_labels bdf !! j = Some label →
     ws_header ws !! j =
       Some (mkHeaderCell 2 (j + 1) (if friendly_names then friendlize label else label)) ∧
     ∃ fmt, ws_columns ws !! j = Some (mkColumnSetting (j + 1) (j + 1) fmt)) ∧
  (2 ≤ df_ncols bdf → ws_title ws = MergeRange 1 1 1 (df_ncols bdf) T) ∧
  (df_ncols bdf ≤ 1 → ws_title ws = WriteCell 1 1 T).
Proof.
  intros Hws Hbdf HT.
  destruct (xl_sheets_lookup _ _ _ _ _ _ _ _ _ Hws) as (b & T' & sn & Hb & Hname & ->).
  assert (b = bdf) as -> by congruence.
  apply name_frame_display in Hname. assert (T' = T) as -> by congruence.
  cbn [ws_startrow ws_startcol ws_header ws_columns ws_title build_sheet].
  split; [done|]. split; [done|]. split; [|split].
  - intros j label Hj. unfold header_cells, column_settings.
    rewrite !list_lookup_imap, Hj. split; [done|].
    unfold df_labels in Hj. rewrite list_lookup_fmap in Hj.
    destruct (df_columns bdf !! j) as [[C series]|]; [|done]. cbn. eauto.
  - intros Hn. unfold title_cell. destruct (1 <? df_ncols bdf)%nat eqn:Hlt; [done|].
    apply Nat.ltb_ge in Hlt. lia.
  - intros Hn. unfold title_cell. destruct (1 <? df_ncols bdf)%nat eqn:Hlt; [|done].
    apply Nat.ltb_lt in Hlt. lia.
Qed.

Lemma sheet_layout_witness :
  ∃ ws,
    xl_sheets (save_dfs_as_xl [sales; three_rows] ∅ "./" "file" ["Sales"; "Counts"] ∅ true)
      !! 1 = Some ws ∧
    ws_header ws !! 0 = Some (mkHeaderCell 2 1 "N") ∧
    ws_title ws = WriteCell 1 1 "Counts".
Proof.
  eexists. split; [vm_compute; reflexivity|].
  edestruct (sheet_layout [sales; three_rows] ∅ "./" "file" ["Sales"; "Counts"] ∅ true 1)
    as (_ & _ & Hcols & _ & Hone); [vm_compute; reflexivity..|].
  split; [exact (proj1 (Hcols 0 "n" eq_refl))|apply Hone; unfold df_ncols; simpl; lia].
Defined.

(** Digits are left alone by the friendly naming. *)
Lemma digit_char_is_digit d : (d < 10)%N → is_digit (Py.digit_char d) = true.
Proof.
  intros Hd.
  assert (d = 0 ∨ d = 1 ∨ d = 2 ∨ d = 3 ∨ d = 4 ∨ d = 5 ∨ d = 6 ∨ d = 7 ∨ d = 8 ∨ d = 9)%N
    as Hcases by lia.
  destruct_or!; subst; reflexivity.
Qed.

Lemma digits_go_all_digits fuel : ∀ n acc,
  all_digits acc = true → all_digits (Py.digits_go fuel n acc) = true.
Proof.
  induction fuel as [|fuel IH]; intros n acc Hacc; cbn [Py.digits_go]; [done|].
  assert (all_digits (String (Py.digit_char (n mod 10)) acc) = true) as Hacc'.
  { cbn [all_digits]. rewrite digit_char_is_digit, Hacc; [done|].
    by apply N.mod_lt. }
  destruct (n / 10 =? 0)%N; [done|]. by apply IH.
Qed.

Lemma digit_unchanged c :
  is_digit c = true →
  Ascii.eqb c "_" = false ∧ Py.lower_char c = c ∧ Py.upper_char c = c.
Proof.
  destruct c as [[] [] [] [] [] [] [] []]; vm_compute; intros; try discriminate;
    repeat split; reflexivity.
Qed.

Lemma friendlize_from_digits b s : all_digits s = true → friendlize_from b s = s.
Proof.
  revert b. induction s as [|c r IH]; intros b; [done|].
  cbn [all_digits]. intros [Hc Hr]%andb_true_iff.
  destruct (digit_unchanged c Hc) as (Hu & Hl & Hup).
  cbn [friendlize_from]. rewrite Hu, IH by done. by destruct b; rewrite ?Hl, ?Hup.
Qed.

Lemma friendlize_auto_name digits :
  all_digits digits = true → friendlize ("Sheet" +:+ digits) = "Sheet" +:+ digits.
Proof.
  intros Hd. rewrite friendlize_pointwise.
  change (friendlize_from true ("Sheet" +:+ digits))
    with (String "S" (String "h" (String "e" (String "e" (String "t"
            (friendlize_from false digits)))))).
  by rewrite friendlize_from_digits.
Qed.

(** X21. When no display names are given, sheet [i] is named and titled
    [Sheet<i>], with or without friendly naming. *)
Theorem automatic_names list_of_frames col_format path file_name tab_names
    friendly_names i ws :
  xl_sheets (save_dfs_as_xl list_of_frames col_format path file_name [] tab_names
               friendly_names) !! i = Some ws →
  ws_name ws = "Sheet" +:+ Py.str_N (N.of_nat i) ∧
  title_text (ws_title ws) = "Sheet" +:+ Py.str_N (N.of_nat i).
Proof.
  intros Hws.
  destruct (xl_sheets_lookup _ _ _ _ _ _ _ _ _ Hws) as (b & T & sn & Hb & Hname & ->).
  unfold name_frame in Hname. injection Hname as <- <-.
  cbn [ws_name ws_title build_sheet]. split.
  - unfold final_sheet_name. destruct friendly_names; [|done].
    apply friendlize_auto_name. unfold Py.str_N. by apply digits_go_all_digits.
  - unfold title_cell. by destruct (1 <? df_ncols b)%nat.
Qed.

Lemma automatic_names_witness :
  ∃ ws,
    xl_sheets (save_dfs_as_xl [sales; three_rows] ∅ "./" "file" [] ∅ true) !! 1 = Some ws ∧
    ws_name ws = "Sheet1" ∧ title_text (ws_title ws) = "Sheet1".
Proof.
  eexists. split; [vm_compute; reflexivity|].
  apply (automatic_names [sales; three_rows] ∅ "./" "file" ∅ true 1).
  vm_compute. reflexivity.
Defined.

(** ** [upload_to_sql], further *)

(** The two table statements are tried one after the other, the second
    whatever the first did. *)
Lemma recreate_table_calls
    (db_raises : list Event → Call → option string) columns table_name schema w :
  ∃ es ls,
    recreate_table db_raises columns table_name schema w =
      (mkWorld (heap w) (events w ++ es) (stdout w ++ ls), inr tt) ∧
    Forall (fun ev => is_insert ev = false) es ∧
    head (ev_call <$> es) = Some (Execute (DropTable schema table_name) []) ∧
    Execute (CreateTable schema table_name
               (Py.join "," ((fun x => "[" +:+ x +:+ "][VARCHAR](Max) NOT NULL") <$> columns)))
            [] ∈ ev_call <$> es.
Proof.
  unfold recreate_table, try_except, mbind, M_bind, print, db. cbn.
  repeat (match goal with
          | |- context [db_raises ?h ?c] => destruct (db_raises h c) eqn:?; cbn
          end);
    eexists _, _; (split; [rewrite <- ?(app_assoc (events w)), <- ?(app_assoc (stdout w));
                            reflexivity|]).
  all: cbn; split; [repeat constructor|]; split; [done|set_solver].
Qed.

Section LoaderMore.

Variable str_float : float64 -> string.
Variable db_raises : list Event -> Call -> option string.

(** [upload_to_sql] step by step, with what the table statements are. *)
Lemma upload_to_sql_events df table_name schema (drop : bool) chunk_print_size w d :
  heap w !! df = Some d →
  ∃ table_events ls,
    (if drop
     then head (ev_call <$> table_events) = Some (Execute (DropTable schema table_name) []) ∧
          Execute (CreateTable schema table_name
                     (Py.join "," ((fun x => "[" +:+ x +:+ "][VARCHAR](Max) NOT NULL")
                                     <$> (rename_column <$> df_labels d))))
                  [] ∈ ev_call <$> table_events
     else table_events = []) ∧
    Forall (fun ev => is_insert ev = false) table_events ∧
    let w3 := after_rows str_float db_raises df d table_name schema chunk_print_size w
                table_events ls in
    let r := db_raises (events w3) Commit in
    upload_to_sql str_float db_raises df table_name schema drop chunk_print_size w =
      (mkWorld (heap w3) (events w3 ++ [mkEvent Commit r])
         (stdout w3 ++ match r with
                       | Some _ => []
                       | None => [Text "Done!"]
                       end),
       match r with
       | Some msg => inl (DriverError msg)
       | None => inr tt
       end).
Proof.
  intros Hd. unfold upload_to_sql, after_rows.
  set (columns := rename_column <$> df_labels d).
  erewrite (bind_run (print _)) by apply print_run.
  erewrite (bind_run (print _)) by apply print_run.
  erewrite (bind_run (normalise _ _)) by (apply normalise_run; exact Hd).
  cbn [heap events stdout].
  set (w1 := mkWorld _ _ _).
  assert (∃ es ls,
    (if drop
     then head (ev_call <$> es) = Some (Execute (DropTable schema table_name) []) ∧
          Execute (CreateTable schema table_name
                     (Py.join "," ((fun x => "[" +:+ x +:+ "][VARCHAR](Max) NOT NULL")
                                     <$> columns))) [] ∈ ev_call <$> es
     else es = []) ∧
    Forall (fun ev => is_insert ev = false) es ∧
    (if drop then recreate_table db_raises columns table_name schema else mret tt) w1
      = (mkWorld (heap w1) (events w1 ++ es) (stdout w1 ++ ls), inr tt))
    as (es & ls & Hshape & Hes & Htable).
  { destruct drop.
    - destruct (recreate_table_calls db_raises columns table_name schema w1)
        as (es & ls & Hrun & Hes & Hhead & Hcreate). by exists es, ls.
    - exists [], []. split; [done|]. split; [constructor|].
      unfold mret, M_ret. subst w1. cbn. by rewrite !app_nil_r. }
  erewrite bind_run by exact Htable.
  subst w1. cbn [heap events stdout].
  erewrite (bind_run (get_df _)) by reflexivity.
  cbn [heap]. rewrite lookup_total_insert_eq.
  erewrite (bind_run (print _)) by apply print_run.
  erewrite (bind_run (print _)) by apply print_run.
  erewrite (bind_run (for_each _ _)) by apply for_each_upload_run.
  cbn [heap events stdout].
  rewrite <- !(app_assoc (stdout w)).
  match goal with
  | |- context [foldl _ (mkWorld _ _ (stdout w ++ ?l)) _] => exists es, l
  end.
  split; [exact Hshape|]. split; [exact Hes|]. cbv zeta.
  unfold mbind, M_bind, db, print.
  by destruct (db_raises _ Commit); cbn; rewrite ?app_nil_r.
Qed.

(** The calls of a run, after those made before it. *)
Lemma upload_to_sql_issued df table_name schema (drop : bool) chunk_print_size w d :
  heap w !! df = Some d →
  ∃ table_events r,
    (if drop
     then head (ev_call <$> table_events) = Some (Execute (DropTable schema table_name) []) ∧
          Execute (CreateTable schema table_name
                     (Py.join "," ((fun x => "[" +:+ x +:+ "][VARCHAR](Max) NOT NULL")
                                     <$> (rename_column <$> df_labels d))))
                  [] ∈ ev_call <$> table_events
     else table_events = []) ∧
    Forall (fun ev => is_insert ev = false) table_events ∧
    skipn (length (events w))
      (events (upload_to_sql str_float db_raises df table_name schema drop
                 chunk_print_size w).1)
    = table_events ++
      (if decide (chunk_print_size = 0%Z) then []
       else inserts db_raises
              (insert_statement (rename_column <$> df_labels d) table_name schema)
              (events w ++ table_events) (iterrows (loaded_frame str_float d)).*2) ++
      [mkEvent Commit r] ∧
    (upload_to_sql str_float db_raises df table_name schema drop chunk_print_size w).2
    = match r with
      | Some msg => inl (DriverError msg)
      | None => inr tt
      end.
Proof.
  intros Hd.
  destruct (upload_to_sql_events df table_name schema drop chunk_print_size w d Hd)
    as (es & ls & Hshape & Hes & ->).
  cbn [fst snd events]. unfold after_rows.
  exists es. eexists. split; [exact Hshape|]. split; [exact Hes|].
  split; [|reflexivity].
  case_decide as Hz.
  - rewrite (rows_events_zero db_raises _ _ _ _ _ _ _ Hz). cbn [events].
    by rewrite <- app_assoc, drop_app_length.
  - rewrite (rows_events db_raises _ _ _ _ _ _ _ Hz). cbn [events].
    by rewrite <- !app_assoc, drop_app_length.
Qed.

End LoaderMore.

(** With a zero print interval every row is reported and none is sent. *)
Lemma rows_zero_logged (db_raises : list Event → Call → option string)
    df columns table_name schema items : ∀ w k index row,
  items !! k = Some (index, row) →
  let w' := foldl (row_step db_raises df columns table_name schema 0) w items in
  Text ("Could not upload " +:+ Py.str_N (N.of_nat index)) ∈ stdout w' ∧
  ExceptionLine ZeroDivisionError ∈ stdout w'.
Proof.
  induction items as [|item items IH]; intros w k index row Hk; [done|].
  cbn [foldl]. destruct k as [|k].
  - injection Hk as ->.
    destruct (rows_stdout_grows db_raises df columns table_name schema 0 items
                (row_step db_raises df columns table_name schema 0 w (index, row)))
      as [ls ->].
    unfold row_step. cbn [Z.eqb stdout fst].
    rewrite !elem_of_app, !elem_of_cons.
    split; [left; right; by left|left; right; right; by left].
  - exact (IH _ k index row Hk).
Qed.

(** X22. With [chunk_print_size] zero no row is sent: the test of the
    print interval fails inside the [try] for every row, each row is
    reported as not uploaded, and the commit is still made. *)
Theorem zero_print_interval_sends_nothing (str_float : float64 → string)
    (db_raises : list Event → Call → option string)
    df table_name schema (drop : bool) w d :
  heap w !! df = Some d →
  let w' := (upload_to_sql str_float db_raises df table_name schema drop 0 w).1 in
  filter (fun ev => is_insert ev = true) (skipn (length (events w)) (events w')) = [] ∧
  ev_call <$> last (events w') = Some Commit ∧
  ∀ k, k < df_nrows d →
    Text ("Could not upload " +:+ Py.str_N (N.of_nat k)) ∈ stdout w' ∧
    ExceptionLine ZeroDivisionError ∈ stdout w'.
Proof.
  intros Hd w'.
  destruct (upload_to_sql_issued str_float db_raises df table_name schema drop 0 w d Hd)
    as (es & r & _ & Hes & Hissued & _).
  split; [|split].
  - subst w'. rewrite Hissued. rewrite decide_True by done.
    rewrite !filter_app, (filter_inserts_none _ Hes).
    rewrite (filter_cons_False _ (mkEvent Commit _)) by done. by rewrite filter_nil.
  - subst w'.
    destruct (upload_to_sql_events str_float db_raises df table_name schema drop 0 w d Hd)
      as (es' & ls & _ & _ & ->).
    cbn [fst events]. by rewrite last_snoc.
  - intros k Hk. subst w'.
    destruct (upload_to_sql_events str_float db_raises df table_name schema drop 0 w d Hd)
      as (es' & ls & _ & _ & ->).
    cbn [fst stdout]. unfold after_rows.
    assert (is_Some (iterrows (loaded_frame str_float d) !! k)) as [[index row] Hitem].
    { apply lookup_lt_is_Some. by rewrite iterrows_length. }
    destruct (iterrows_lookup _ _ _ _ Hitem) as [-> _].
    destruct (rows_zero_logged db_raises df (rename_column <$> df_labels d) table_name schema
                (iterrows (loaded_frame str_float d))
                (mkWorld (<[df:=loaded_frame str_float d]> (heap w)) (events w ++ es')
                   (stdout w ++ ls)) k k row Hitem) as [H1 H2].
    rewrite !elem_of_app. by split; left.
Qed.

Lemma zero_print_interval_sends_nothing_witness :
  let w' := (upload_to_sql (fun _ => "nan") (fun _ _ => None) 0 "t" "dbo" true 0
               ten_rows_world).1 in
  filter (fun ev => is_insert ev = true)
    (skipn (length (events ten_rows_world)) (events w')) = [] ∧
  ev_call <$> last (events w') = Some Commit ∧
  ∀ k, k < df_nrows ten_rows →
    Text ("Could not upload " +:+ Py.str_N (N.of_nat k)) ∈ stdout w' ∧
    ExceptionLine ZeroDivisionError ∈ stdout w'.
Proof.
  apply (zero_print_interval_sends_nothing (fun _ => "nan") (fun _ _ => None) 0 "t" "dbo"
           true ten_rows_world ten_rows).
  vm_compute. reflexivity.
Defined.

(** X23. With a print interval other than zero, one insert is sent for
    every row of the table, in the order of the rows and whatever the
    database answers to the inserts before it. *)
Theorem one_insert_per_row (str_float : float64 → string)
    (db_raises : list Event → Call → option string)
    df table_name schema (drop : bool) chunk_print_size w d :
  heap w !! df = Some d →
  chunk_print_size ≠ 0%Z →
  let w' := (upload_to_sql str_float db_raises df table_name schema drop
               chunk_print_size w).1 in
  let row_events :=
    filter (fun ev => is_insert ev = true) (skipn (length (events w)) (events w')) in
  ev_call <$> row_events =
    Execute (insert_statement (rename_column <$> df_labels d) table_name schema)
      <$> (iterrows (loaded_frame str_float d)).*2 ∧
  length row_events = df_nrows d.
Proof.
  intros Hd Hnz w' row_events. subst w' row_events.
  destruct (upload_to_sql_issued str_float db_raises df table_name schema drop
              chunk_print_size w d Hd) as (es & r & _ & Hes & -> & _).
  rewrite decide_False by done.
  rewrite !filter_app, (filter_inserts_none _ Hes).
  rewrite (filter_inserts_all _ (inserts_all_insert db_raises _ _ _ _ _)).
  rewrite (filter_cons_False _ (mkEvent Commit _)) by done.
  rewrite filter_nil, app_nil_l, app_nil_r, inserts_calls.
  split; [done|].
  rewrite <- (length_fmap ev_call), inserts_calls, !length_fmap.
  exact (iterrows_length (loaded_frame str_float d)).
Qed.

Lemma one_insert_per_row_witness :
  let w' := (upload_to_sql (fun _ => "nan") refuse_five 0 "t" "dbo" false (-3)
               ten_rows_world).1 in
  let row_events :=
    filter (fun ev => is_insert ev = true)
      (skipn (length (events ten_rows_world)) (events w')) in
  ev_call <$> row_events =
    Execute (insert_statement (rename_column <$> df_labels ten_rows) "t" "dbo")
      <$> (iterrows (loaded_frame (fun _ => "nan") ten_rows)).*2 ∧
  length row_events = df_nrows ten_rows.
Proof.
  apply (one_insert_per_row (fun _ => "nan") refuse_five 0 "t" "dbo" false (-3)
           ten_rows_world ten_rows).
  - vm_compute. reflexivity.
  - discriminate.
Defined.

(** X24. Every cell reaches the database as text: with a print interval
    other than zero and a table with one cell per row in every column, the
    insert that [upload_to_sql] sends for row [k] has one parameter per
    column, every parameter is a string, and the parameter of column [j]
    is [str] of the cell the caller's table has in row [k] of column
    [j]. *)
Theorem cells_are_sent_as_text (str_float : float64 → string)
    (db_raises : list Event → Call → option string)
    df table_name schema (drop : bool) chunk_print_size w d k :
  heap w !! df = Some d →
  chunk_print_size ≠ 0%Z →
  rectangular d →
  k < df_nrows d →
  let w' := (upload_to_sql str_float db_raises df table_name schema drop
               chunk_print_size w).1 in
  let row_events :=
    filter (fun ev => is_insert ev = true) (skipn (length (events w)) (events w')) in
  ∃ params,
    ev_call <$> row_events !! k =
      Some (Execute (insert_statement (rename_column <$> df_labels d) table_name schema)
              params) ∧
    length params = df_ncols d ∧
    Forall (fun v => is_text v = true) params ∧
    ∀ j label s v,
      df_columns d !! j = Some (label, s) →
      cells s !! k = Some v →
      params !! j = Some (VStr (py_str str_float v)).
Proof.
  intros Hd Hnz Hrect Hk w' row_events. subst w' row_events.
  destruct (upload_to_sql_issued str_float db_raises df table_name schema drop
              chunk_print_size w d Hd) as (es & r & _ & Hes & -> & _).
  rewrite decide_False by done.
  rewrite !filter_app, (filter_inserts_none _ Hes).
  rewrite (filter_inserts_all _ (inserts_all_insert db_raises _ _ _ _ _)).
  rewrite (filter_cons_False _ (mkEvent Commit _)) by done.
  rewrite filter_nil, app_nil_l, app_nil_r.
  rewrite <- list_lookup_fmap, inserts_calls, !list_lookup_fmap.
  unfold iterrows. rewrite list_lookup_fmap.
  change (df_nrows (loaded_frame str_float d)) with (df_nrows d).
  rewrite (lookup_seq_lt _ _ _ Hk).
  cbn [fmap option_fmap option_map snd plus].
  eexists. split; [reflexivity|].
  unfold loaded_frame, df_ncols. cbn [df_columns].
  split; [by rewrite !length_fmap|]. split.
  - rewrite <- list_fmap_compose. apply Forall_fmap.
    eapply Forall_impl; [exact Hrect|].
    intros [label s] Hlen. cbn. cbn in Hlen.
    rewrite list_lookup_fmap.
    destruct (cells s !! k) as [v|] eqn:Hv; [done|].
    apply lookup_ge_None in Hv. lia.
  - intros j label s v Hj Hv.
    rewrite !list_lookup_fmap, Hj. cbn.
    by rewrite list_lookup_fmap, Hv.
Qed.

Lemma sales_rectangular : rectangular sales.
Proof. repeat constructor. Defined.

Lemma cells_are_sent_as_text_witness :
  let w' := (upload_to_sql (fun _ => "nan") (fun _ _ => None) 7 "t" "dbo" false 50
               one_frame_world).1 in
  let row_events :=
    filter (fun ev => is_insert ev = true)
      (skipn (length (events one_frame_world)) (events w')) in
  ∃ params,
    ev_call <$> row_events !! 2 =
      Some (Execute (insert_statement (rename_column <$> df_labels sales) "t" "dbo")
              params) ∧
    length params = df_ncols sales ∧
    Forall (fun v => is_text v = true) params ∧
    ∀ j label s v,
      df_columns sales !! j = Some (label, s) →
      cells s !! 2 = Some v →
      params !! j = Some (VStr (py_str (fun _ => "nan") v)).
Proof.
  apply (cells_are_sent_as_text (fun _ => "nan") (fun _ _ => None) 7 "t" "dbo" false 50
           one_frame_world sales 2).
  - vm_compute. reflexivity.
  - discriminate.
  - exact sales_rectangular.
  - vm_compute. lia.
Defined.

(** X25. With [drop] off the table is neither dropped nor created: the
    run sends inserts and the final commit only. *)
Theorem no_table_statement_without_drop (str_float : float64 → string)
    (db_raises : list Event → Call → option string)
    df table_name schema chunk_print_size w d :
  heap w !! df = Some d →
  let w' := (upload_to_sql str_float db_raises df table_name schema false
               chunk_print_size w).1 in
  Forall (fun ev => is_ddl ev = false) (skipn (length (events w)) (events w')) ∧
  length (filter (fun ev => is_commit ev = true) (skipn (length (events w)) (events w'))) = 1.
Proof.
  intros Hd w'. subst w'.
  destruct (upload_to_sql_issued str_float db_raises df table_name schema false
              chunk_print_size w d Hd) as (es & r & -> & _ & -> & _).
  cbn [app].
  assert (∀ h rows,
    Forall (fun ev => is_ddl ev = false ∧ is_commit ev = false)
      (inserts db_raises (insert_statement (rename_column <$> df_labels d) table_name schema)
         h rows)) as Hins.
  { intros h rows. revert h. induction rows as [|row rows IH]; intros h; cbn [inserts];
      constructor; [done|apply IH]. }
  split.
  - apply Forall_app. split; [|by repeat constructor].
    case_decide; [constructor|].
    eapply Forall_impl; [apply Hins|]. by intros ev [? _].
  - rewrite filter_app. rewrite (filter_cons_True _ (mkEvent Commit r)) by done.
    rewrite filter_nil, length_app. cbn [length].
    assert (filter (fun ev => is_commit ev = true)
              (if decide (chunk_print_size = 0%Z) then []
               else inserts db_raises
                      (insert_statement (rename_column <$> df_labels d) table_name schema)
                      (events w ++ []) (iterrows (loaded_frame str_float d)).*2) = []) as ->;
      [|done].
    case_decide; [done|].
    specialize (Hins (events w ++ []) (iterrows (loaded_frame str_float d)).*2).
    induction Hins as [|ev evs [_ Hev] _ IH]; [done|].
    rewrite filter_cons_False by congruence. exact IH.
Qed.

Lemma no_table_statement_without_drop_witness :
  let w' := (upload_to_sql (fun _ => "nan") refuse_five 0 "t" "dbo" false 50
               ten_rows_world).1 in
  Forall (fun ev => is_ddl ev = false) (skipn (length (events ten_rows_world)) (events w')) ∧
  length (filter (fun ev => is_commit ev = true)
            (skipn (length (events ten_rows_world)) (events w'))) = 1.
Proof.
  apply (no_table_statement_without_drop (fun _ => "nan") refuse_five 0 "t" "dbo" 50
           ten_rows_world ten_rows).
  vm_compute. reflexivity.
Defined.

(** X26. With [drop] on, the run starts with the drop of the table and
    the creation of the table is attempted whatever the drop did; the new
    table has one unbounded text column per rewritten label. *)
Theorem table_is_recreated (str_float : float64 → string)
    (db_raises : list Event → Call → option string)
    df table_name schema chunk_print_size w d :
  heap w !! df = Some d →
  let w' := (upload_to_sql str_float db_raises df table_name schema true
               chunk_print_size w).1 in
  let issued := ev_call <$> skipn (length (events w)) (events w') in
  head issued = Some (Execute (DropTable schema table_name) []) ∧
  Execute (CreateTable schema table_name
             (Py.join "," ((fun x => "[" +:+ x +:+ "][VARCHAR](Max) NOT NULL")
                             <$> (rename_column <$> df_labels d)))) [] ∈ issued.
Proof.
  intros Hd w' issued. subst w' issued.
  destruct (upload_to_sql_issued str_float db_raises df table_name schema true
              chunk_print_size w d Hd) as (es & r & [Hhead Hcreate] & _ & -> & _).
  rewrite fmap_app. split.
  - destruct es as [|ev es]; [done|]. exact Hhead.
  - apply elem_of_app. by left.
Qed.

Lemma table_is_recreated_witness :
  let w' := (upload_to_sql (fun _ => "nan") (fun _ _ => Some "denied") 0 "t" "dbo" true 50
               ten_rows_world).1 in
  let issued := ev_call <$> skipn (length (events ten_rows_world)) (events w') in
  head issued = Some (Execute (DropTable "dbo" "t") []) ∧
  Execute (CreateTable "dbo" "t"
             (Py.join "," ((fun x => "[" +:+ x +:+ "][VARCHAR](Max) NOT NULL")
                             <$> (rename_column <$> df_labels ten_rows)))) [] ∈ issued.
Proof.
  apply (table_is_recreated (fun _ => "nan") (fun _ _ => Some "denied") 0 "t" "dbo" 50
           ten_rows_world ten_rows).
  vm_compute. reflexivity.
Defined.

(** X27. Only the final commit can make [upload_to_sql] raise: the last
    call of a run is a commit, the run ends with the exception of that
    commit when it raises and normally otherwise, whatever the table
    statements and the inserts did. *)
Theorem only_final_commit_escapes (str_float : float64 → string)
    (db_raises : list Event → Call → option string)
    df table_name schema (drop : bool) chunk_print_size w d :
  heap w !! df = Some d →
  let run := upload_to_sql str_float db_raises df table_name schema drop
               chunk_print_size w in
  ∃ r,
    last (events run.1) = Some (mkEvent Commit r) ∧
    run.2 = match r with
            | Some msg => inl (DriverError msg)
            | None => inr tt
            end ∧
    (r = None → last (stdout run.1) = Some (Text "Done!")).
Proof.
  intros Hd run. subst run.
  destruct (upload_to_sql_events str_float db_raises df table_name schema drop
              chunk_print_size w d Hd) as (es & ls & _ & _ & ->).
  cbn [fst snd events stdout]. eexists. split; [apply last_snoc|]. split; [done|].
  intros ->. apply last_snoc.
Qed.

Lemma only_final_commit_escapes_witness :
  (upload_to_sql (fun _ => "nan") commit_refused 0 "t" "dbo" false 50 ten_rows_world).2
  = inl (DriverError "connection lost").
Proof.
  destruct (only_final_commit_escapes (fun _ => "nan") commit_refused 0 "t" "dbo" false 50
              ten_rows_world ten_rows) as (r & Hlast & Hres & _); [vm_compute; reflexivity|].
  rewrite Hres. vm_compute in Hlast. by injection Hlast as <-.
Defined.

(** The frame of a run, whatever the database does. *)
Lemma upload_to_sql_heap (str_float : float64 → string)
    (db_raises : list Event → Call → option string)
    df table_name schema (drop : bool) chunk_print_size w d :
  heap w !! df = Some d →
  heap (upload_to_sql str_float db_raises df table_name schema drop chunk_print_size w).1
  = <[df := loaded_frame str_float d]> (heap w).
Proof.
  intros Hd.
  destruct (upload_to_sql_run str_float db_raises df table_name schema drop
              chunk_print_size w d Hd) as (es & ls & _ & ->).
  cbn [fst heap]. unfold after_rows. by rewrite rows_heap.
Qed.

Lemma rename_chars_app a b : rename_chars (a +:+ b) = rename_chars a +:+ rename_chars b.
Proof.
  induction a as [|c a IH]; [done|].
  change (String c a +:+ b) with (String c (a +:+ b)). cbn [rename_chars].
  destruct (Ascii.eqb c ":" || Ascii.eqb c "(" || Ascii.eqb c ")"); [exact IH|].
  by rewrite IH.
Qed.

Lemma rename_chars_one c :
  rename_chars (rename_chars (String c EmptyString)) = rename_chars (String c EmptyString).
Proof. by_cases_on_char c. Qed.

Lemma rename_chars_idemp y : rename_chars (rename_chars y) = rename_chars y.
Proof.
  induction y as [|c r IH]; [done|].
  change (String c r) with (String c EmptyString +:+ r).
  by rewrite !rename_chars_app, rename_chars_one, IH.
Qed.

Lemma loaded_frame_idemp (str_float : float64 → string) d :
  loaded_frame str_float (loaded_frame str_float d) = loaded_frame str_float d.
Proof.
  unfold loaded_frame. cbn [df_nrows df_columns]. f_equal.
  rewrite <- list_fmap_compose. apply list_fmap_ext. intros _ [label s] _. cbn.
  by rewrite astype_str_idemp, !rename_column_chars, rename_chars_idemp.
Qed.

(** X28. Loading the same frame a second time leaves it as the first run
    left it: the rewriting of the labels and the conversion to text change
    nothing when applied again. *)
Theorem second_upload_keeps_frame (str_float : float64 → string)
    (db_raises db_raises' : list Event → Call → option string)
    df table_name schema (drop : bool) chunk_print_size
    table_name' schema' (drop' : bool) chunk_print_size' w d :
  heap w !! df = Some d →
  let w1 := (upload_to_sql str_float db_raises df table_name schema drop
               chunk_print_size w).1 in
  let w2 := (upload_to_sql str_float db_raises' df table_name' schema' drop'
               chunk_print_size' w1).1 in
  heap w2 = heap w1.
Proof.
  intros Hd w1 w2. subst w2 w1.
  rewrite (upload_to_sql_heap str_float db_raises' df table_name' schema' drop'
             chunk_print_size' _ (loaded_frame str_float d)).
  - rewrite (upload_to_sql_heap _ _ _ _ _ _ _ _ _ Hd).
    by rewrite insert_insert_eq, loaded_frame_idemp.
  - rewrite (upload_to_sql_heap _ _ _ _ _ _ _ _ _ Hd). apply lookup_insert_eq.
Qed.

Lemma second_upload_keeps_frame_witness :
  let w1 := (upload_to_sql (fun _ => "nan") refuse_five 7 "t" "dbo" true 50
               one_frame_world).1 in
  let w2 := (upload_to_sql (fun _ => "nan") commit_refused 7 "u" "dbo" false 0 w1).1 in
  heap w2 = heap w1.
Proof.
  apply (second_upload_keeps_frame (fun _ => "nan") refuse_five commit_refused 7 "t" "dbo"
           true 50 "u" "dbo" false 0 one_frame_world sales).
  vm_compute. reflexivity.
Defined.

Lemma renamed_char_clean c :
  Ascii.eqb c ":" || Ascii.eqb c "(" || Ascii.eqb c ")" = false →
  Ascii.eqb " " (if Ascii.eqb c " " then "_"%char else Py.lower_char c) = false ∧
  Ascii.eqb ":" (if Ascii.eqb c " " then "_"%char else Py.lower_char c) = false ∧
  Ascii.eqb "(" (if Ascii.eqb c " " then "_"%char else Py.lower_char c) = false ∧
  Ascii.eqb ")" (if Ascii.eqb c " " then "_"%char else Py.lower_char c) = false ∧
  Py.lower_char (if Ascii.eqb c " " then "_"%char else Py.lower_char c)
    = (if Ascii.eqb c " " then "_"%char else Py.lower_char c).
Proof.
  destruct c as [[] [] [] [] [] [] [] []]; vm_compute; intros; try discriminate;
    repeat split; reflexivity.
Qed.

Lemma rename_chars_clean y :
  Py.contains " " (rename_chars y) = false ∧
  Py.contains ":" (rename_chars y) = false ∧
  Py.contains "(" (rename_chars y) = false ∧
  Py.contains ")" (rename_chars y) = false ∧
  Py.lower (rename_chars y) = rename_chars y.
Proof.
  induction y as [|c r (IH1 & IH2 & IH3 & IH4 & IH5)]; [done|].
  cbn [rename_chars].
  destruct (Ascii.eqb c ":" || Ascii.eqb c "(" || Ascii.eqb c ")") eqn:Hdrop; [done|].
  destruct (renamed_char_clean c Hdrop) as (H1 & H2 & H3 & H4 & H5).
  rewrite !contains_char_cons, IH1, IH2, IH3, IH4, H1, H2, H3, H4.
  cbn [Py.lower]. by rewrite IH5, H5.
Qed.

(** X29. A rewritten column label contains no space, no colon, no round
    bracket and no upper-case letter. *)
Theorem renamed_labels_are_clean y :
  Py.contains " " (rename_column y) = false ∧
  Py.contains ":" (rename_column y) = false ∧
  Py.contains "(" (rename_column y) = false ∧
  Py.contains ")" (rename_column y) = false ∧
  Py.lower (rename_column y) = rename_column y.
Proof. rewrite rename_column_chars. apply rename_chars_clean. Qed.
